(** * geolocation-app: a shallow embedding of [app.py]

    The Flask service of [app.py] accepts coordinate submissions, validates
    them, stores them in SQLite and reports statistics and health.  This file
    embeds the request path of that module and proves its specification.

    - Python floats are IEEE-754 binary64 values ([spec_float] of the standard
      library, precision 53, maximal exponent 1024).
    - Python values that can arrive in a JSON body are the type [pyval].
    - A text is a Rocq [string] holding the UTF-8 encoding of the Python
      [str]; where the code counts or encodes characters the [str] is the
      list of its code points, [pystr].
    - Exceptions are explicit: a computation returns [Ret v] or [Raise e].
    - Handlers are state transformers over [world]: the limiter's dictionary,
      the two SQLite tables, the faults the storage layer is about to produce,
      the clock readings and the operational log. *)

From Stdlib Require Import ZArith String Ascii List Bool Lia DecimalString.
From Stdlib Require Import Floats.SpecFloat.
From stdpp Require Import gmap strings list.
Import ListNotations.

Local Open Scope string_scope.
Local Open Scope Z_scope.

(** ** Binary64 floats *)

Definition float64 := spec_float.

Definition prec64 : Z := 53.
Definition emax64 : Z := 1024.

Definition is_finite (f : float64) : bool :=
  match f with
  | S754_zero _ | S754_finite _ _ _ => true
  | S754_infinity _ | S754_nan => false
  end.

(** [float - float]. *)
Definition float_sub (x y : float64) : float64 := SFsub prec64 emax64 x y.

(** Comparison of a float with a Python [int].  CPython's
    [float_richcompare] compares the two exactly, without converting the
    integer to a float; every comparison with NaN is false. *)
Definition float_cmp_int (f : float64) (z : Z) : option comparison :=
  match f with
  | S754_nan => None
  | S754_infinity s => Some (if s then Lt else Gt)
  | S754_zero _ => Some (0 ?= z)
  | S754_finite s m e =>
      let v := cond_Zopp s (Zpos m) in
      Some (if 0 <=? e then (v * 2 ^ e ?= z) else (v ?= z * 2 ^ (- e)))
  end.

(** [f < z] *)
Definition float_lt_int (f : float64) (z : Z) : bool :=
  match float_cmp_int f z with Some Lt => true | _ => false end.

(** [f <= z] *)
Definition float_le_int (f : float64) (z : Z) : bool :=
  match float_cmp_int f z with Some (Lt | Eq) => true | _ => false end.

(** [z <= f] *)
Definition int_le_float (z : Z) (f : float64) : bool :=
  match float_cmp_int f z with Some (Gt | Eq) => true | _ => false end.

(** The rational value of a finite float, as numerator and denominator. *)
Definition float_num_den (f : float64) : Z * Z :=
  match f with
  | S754_finite s m e =>
      let v := cond_Zopp s (Zpos m) in
      if 0 <=? e then (v * 2 ^ e, 1) else (v, 2 ^ (- e))
  | _ => (0, 1)
  end.

(** Rounding to nearest, ties to even, of the integer [z]. *)
Definition float_of_Z (z : Z) : float64 := binary_normalize prec64 emax64 z 0 false.

(** Rounding to nearest, ties to even, of [(-1)^neg * m * 10^e] for a
    mantissa [m >= 0]: the conversion CPython's [strtod] performs on a decimal
    literal.  A negative exponent divides: the quotient is computed with more
    than [prec64] significant bits and the position of the remainder decides
    the rounding. *)
Definition float_of_decimal (neg : bool) (m e : Z) : float64 :=
  if m <=? 0 then S754_zero neg
  else if 0 <=? e then
    match m * 10 ^ e with
    | Zpos p => binary_round prec64 emax64 neg p 0
    | _ => S754_zero neg
    end
  else
    let d := 10 ^ (- e) in
    let k := Z.max 0 (Z.log2 d - Z.log2 m + 56) in
    let '(q, r) := Z.div_eucl (m * 2 ^ k) d in
    binary_round_aux prec64 emax64 neg q (- k) (new_location d r).

(** ** Python values and exceptions *)

(** The values a decoded JSON body can hold.  A [str] is given by its UTF-8
    text.  A dictionary keeps its items in insertion order. *)
#[warnings="-register-all"]
Inductive pyval :=
| PyNone
| PyBool (b : bool)
| PyInt (z : Z)
| PyFloat (f : float64)
| PyStr (s : string)
| PyList (l : list pyval)
| PyDict (d : list (string * pyval)).

Inductive exn_class :=
| ValueError | TypeError | OverflowError | AttributeError | SQLiteError
| UnicodeEncodeError.

(** An exception: its class and [str(e)]. *)
Record exn := Exn { exn_class_of : exn_class; exn_str : string }.

Inductive result (A : Type) :=
| Ret (a : A)
| Raise (e : exn).
Arguments Ret {A} a.
Arguments Raise {A} e.

Definition type_name (v : pyval) : string :=
  match v with
  | PyNone => "NoneType"
  | PyBool _ => "bool"
  | PyInt _ => "int"
  | PyFloat _ => "float"
  | PyStr _ => "str"
  | PyList _ => "list"
  | PyDict _ => "dict"
  end.

(** [bool(v)]: the truth value of [if not data]. *)
Definition truthy (v : pyval) : bool :=
  match v with
  | PyNone => false
  | PyBool b => b
  | PyInt z => negb (z =? 0)
  | PyFloat (S754_zero _) => false
  | PyFloat _ => true
  | PyStr s => negb (String.eqb s "")
  | PyList l => match l with [] => false | _ => true end
  | PyDict d => match d with [] => false | _ => true end
  end.

Definition is_none (v : pyval) : bool :=
  match v with PyNone => true | _ => false end.

Fixpoint dict_lookup (d : list (string * pyval)) (k : string) : option pyval :=
  match d with
  | [] => None
  | (k', v) :: d' => if String.eqb k' k then Some v else dict_lookup d' k
  end.

(** [data.get(k)]: the value or [None] on a dictionary; every other JSON
    value has no attribute [get]. *)
Definition py_get (data : pyval) (k : string) : result pyval :=
  match data with
  | PyDict d => Ret (default PyNone (dict_lookup d k))
  | _ => Raise (Exn AttributeError
                  ("'" ++ type_name data ++ "' object has no attribute 'get'"))
  end.

(** ** Text *)

(** A Python [str] is a sequence of code points; a lone surrogate is one of
    them.  Where the model writes a text as a Rocq [string], the string is
    the UTF-8 encoding of the [str] it stands for. *)
Definition pystr : Type := list Z.

Definition byte_of (c : ascii) : Z := Z.of_N (N_of_ascii c).
Definition char_of (z : Z) : ascii := ascii_of_N (Z.to_N z).

Definition is_surrogate (c : Z) : bool := (55296 <=? c) && (c <=? 57343).

(** A continuation byte, [10xxxxxx]. *)
Definition is_continuation (b : Z) : bool := (128 <=? b) && (b <=? 191).

(** The code point that starts at the byte [b0], and how many of the bytes
    after it belong to it.  A byte that starts no well-formed sequence (an
    overlong form, an encoded surrogate, a value past U+10FFFF, a stray or
    missing continuation byte) is read as U+FFFD. *)
Definition decode_step (b0 : Z) (rest : list Z) : Z * nat :=
  if b0 <? 128 then (b0, 0%nat)
  else
    match rest with
    | b1 :: rest1 =>
        if negb (is_continuation b1) then (65533, 0%nat)
        else if (194 <=? b0) && (b0 <=? 223) then
          ((b0 - 192) * 64 + (b1 - 128), 1%nat)
        else
          match rest1 with
          | b2 :: rest2 =>
              if negb (is_continuation b2) then (65533, 0%nat)
              else if (224 <=? b0) && (b0 <=? 239) then
                let c := (b0 - 224) * 4096 + (b1 - 128) * 64 + (b2 - 128) in
                if (2048 <=? c) && negb (is_surrogate c) then (c, 2%nat)
                else (65533, 0%nat)
              else
                match rest2 with
                | b3 :: _ =>
                    let c := (b0 - 240) * 262144 + (b1 - 128) * 4096
                             + (b2 - 128) * 64 + (b3 - 128) in
                    if is_continuation b3 && (240 <=? b0) && (b0 <=? 244)
                       && (65536 <=? c) && (c <=? 1114111)
                    then (c, 3%nat)
                    else (65533, 0%nat)
                | [] => (65533, 0%nat)
                end
          | [] => (65533, 0%nat)
          end
    | [] => (65533, 0%nat)
    end.

Fixpoint decode_bytes (fuel : nat) (l : list Z) : pystr :=
  match fuel, l with
  | S fuel', b0 :: rest =>
      let '(c, n) := decode_step b0 rest in
      c :: decode_bytes fuel' (drop n rest)
  | _, _ => []
  end.

(** The [str] a text of the model stands for. *)
Definition decode_utf8 (s : string) : pystr :=
  let l := map byte_of (list_ascii_of_string s) in
  decode_bytes (length l) l.

(** The UTF-8 bytes of one code point that is no surrogate. *)
Definition encode_utf8_char (c : Z) : list ascii :=
  if c <? 128 then [char_of c]
  else if c <? 2048 then [char_of (192 + c / 64); char_of (128 + c mod 64)]
  else if c <? 65536 then
    [char_of (224 + c / 4096); char_of (128 + (c / 64) mod 64);
     char_of (128 + c mod 64)]
  else
    [char_of (240 + c / 262144); char_of (128 + (c / 4096) mod 64);
     char_of (128 + (c / 64) mod 64); char_of (128 + c mod 64)].

(** SQLite stores text as UTF-8, which has no form for a lone surrogate. *)
Definition utf8_encodable (s : pystr) : bool :=
  forallb (fun c => negb (is_surrogate c)) s.

Definition hex_digit (d : Z) : ascii :=
  if d <? 10 then char_of (48 + d) else char_of (87 + d).

(** [n] lowercase hexadecimal digits of [c]. *)
Fixpoint hex_digits (n : nat) (c : Z) : list ascii :=
  match n with
  | O => []
  | S n' => (hex_digits n' (c / 16) ++ [hex_digit (c mod 16)])%list
  end.

(** The zeros of the decimal digits of Unicode 14.0, the table of CPython
    3.11: each is followed by its digits 1 to 9. *)
Definition decimal_zeros : list Z :=
  [
   48; 1632; 1776; 1984; 2406; 2534; 2662; 2790; 2918; 3046;
   3174; 3302; 3430; 3558; 3664; 3792; 3872; 4160; 4240; 6112;
   6160; 6470; 6608; 6784; 6800; 6992; 7088; 7232; 7248; 42528;
   43216; 43264; 43472; 43504; 43600; 44016; 65296; 66720; 68912; 69734;
   69872; 69942; 70096; 70384; 70736; 70864; 71248; 71360; 71472; 71904;
   72016; 72784; 73040; 73120; 92768; 92864; 93008; 120782; 120792; 120802;
   120812; 120822; 123200; 123632; 125264; 130032
  ].

(** The white space of Unicode from U+007F up. *)
Definition unicode_spaces : list Z :=
  [
   133; 160; 5760; 8192; 8193; 8194; 8195; 8196; 8197; 8198;
   8199; 8200; 8201; 8202; 8232; 8233; 8239; 8287; 12288
  ].

(** The ranges of code points from U+0080 up that [str.isprintable] refuses
    (Unicode 14.0). *)
Definition unprintable_ranges : list (Z * Z) :=
  [
   (128, 160); (173, 173); (888, 889); (896, 899); (907, 907);
   (909, 909); (930, 930); (1328, 1328); (1367, 1368); (1419, 1420);
   (1424, 1424); (1480, 1487); (1515, 1518); (1525, 1541); (1564, 1564);
   (1757, 1757); (1806, 1807); (1867, 1868); (1970, 1983); (2043, 2044);
   (2094, 2095); (2111, 2111); (2140, 2141); (2143, 2143); (2155, 2159);
   (2191, 2199); (2274, 2274); (2436, 2436); (2445, 2446); (2449, 2450);
   (2473, 2473); (2481, 2481); (2483, 2485); (2490, 2491); (2501, 2502);
   (2505, 2506); (2511, 2518); (2520, 2523); (2526, 2526); (2532, 2533);
   (2559, 2560); (2564, 2564); (2571, 2574); (2577, 2578); (2601, 2601);
   (2609, 2609); (2612, 2612); (2615, 2615); (2618, 2619); (2621, 2621);
   (2627, 2630); (2633, 2634); (2638, 2640); (2642, 2648); (2653, 2653);
   (2655, 2661); (2679, 2688); (2692, 2692); (2702, 2702); (2706, 2706);
   (2729, 2729); (2737, 2737); (2740, 2740); (2746, 2747); (2758, 2758);
   (2762, 2762); (2766, 2767); (2769, 2783); (2788, 2789); (2802, 2808);
   (2816, 2816); (2820, 2820); (2829, 2830); (2833, 2834); (2857, 2857);
   (2865, 2865); (2868, 2868); (2874, 2875); (2885, 2886); (2889, 2890);
   (2894, 2900); (2904, 2907); (2910, 2910); (2916, 2917); (2936, 2945);
   (2948, 2948); (2955, 2957); (2961, 2961); (2966, 2968); (2971, 2971);
   (2973, 2973); (2976, 2978); (2981, 2983); (2987, 2989); (3002, 3005);
   (3011, 3013); (3017, 3017); (3022, 3023); (3025, 3030); (3032, 3045);
   (3067, 3071); (3085, 3085); (3089, 3089); (3113, 3113); (3130, 3131);
   (3141, 3141); (3145, 3145); (3150, 3156); (3159, 3159); (3163, 3164);
   (3166, 3167); (3172, 3173); (3184, 3190); (3213, 3213); (3217, 3217);
   (3241, 3241); (3252, 3252); (3258, 3259); (3269, 3269); (3273, 3273);
   (3278, 3284); (3287, 3292); (3295, 3295); (3300, 3301); (3312, 3312);
   (3315, 3327); (3341, 3341); (3345, 3345); (3397, 3397); (3401, 3401);
   (3408, 3411); (3428, 3429); (3456, 3456); (3460, 3460); (3479, 3481);
   (3506, 3506); (3516, 3516); (3518, 3519); (3527, 3529); (3531, 3534);
   (3541, 3541); (3543, 3543); (3552, 3557); (3568, 3569); (3573, 3584);
   (3643, 3646); (3676, 3712); (3715, 3715); (3717, 3717); (3723, 3723);
   (3748, 3748); (3750, 3750); (3774, 3775); (3781, 3781); (3783, 3783);
   (3790, 3791); (3802, 3803); (3808, 3839); (3912, 3912); (3949, 3952);
   (3992, 3992); (4029, 4029); (4045, 4045); (4059, 4095); (4294, 4294);
   (4296, 4300); (4302, 4303); (4681, 4681); (4686, 4687); (4695, 4695);
   (4697, 4697); (4702, 4703); (4745, 4745); (4750, 4751); (4785, 4785);
   (4790, 4791); (4799, 4799); (4801, 4801); (4806, 4807); (4823, 4823);
   (4881, 4881); (4886, 4887); (4955, 4956); (4989, 4991); (5018, 5023);
   (5110, 5111); (5118, 5119); (5760, 5760); (5789, 5791); (5881, 5887);
   (5910, 5918); (5943, 5951); (5972, 5983); (5997, 5997); (6001, 6001);
   (6004, 6015); (6110, 6111); (6122, 6127); (6138, 6143); (6158, 6158);
   (6170, 6175); (6265, 6271); (6315, 6319); (6390, 6399); (6431, 6431);
   (6444, 6447); (6460, 6463); (6465, 6467); (6510, 6511); (6517, 6527);
   (6572, 6575); (6602, 6607); (6619, 6621); (6684, 6685); (6751, 6751);
   (6781, 6782); (6794, 6799); (6810, 6815); (6830, 6831); (6863, 6911);
   (6989, 6991); (7039, 7039); (7156, 7163); (7224, 7226); (7242, 7244);
   (7305, 7311); (7355, 7356); (7368, 7375); (7419, 7423); (7958, 7959);
   (7966, 7967); (8006, 8007); (8014, 8015); (8024, 8024); (8026, 8026);
   (8028, 8028); (8030, 8030); (8062, 8063); (8117, 8117); (8133, 8133);
   (8148, 8149); (8156, 8156); (8176, 8177); (8181, 8181); (8191, 8207);
   (8232, 8239); (8287, 8303); (8306, 8307); (8335, 8335); (8349, 8351);
   (8385, 8399); (8433, 8447); (8588, 8591); (9255, 9279); (9291, 9311);
   (11124, 11125); (11158, 11158); (11508, 11512); (11558, 11558); (11560, 11564);
   (11566, 11567); (11624, 11630); (11633, 11646); (11671, 11679); (11687, 11687);
   (11695, 11695); (11703, 11703); (11711, 11711); (11719, 11719); (11727, 11727);
   (11735, 11735); (11743, 11743); (11870, 11903); (11930, 11930); (12020, 12031);
   (12246, 12271); (12284, 12288); (12352, 12352); (12439, 12440); (12544, 12548);
   (12592, 12592); (12687, 12687); (12772, 12783); (12831, 12831); (42125, 42127);
   (42183, 42191); (42540, 42559); (42744, 42751); (42955, 42959); (42962, 42962);
   (42964, 42964); (42970, 42993); (43053, 43055); (43066, 43071); (43128, 43135);
   (43206, 43213); (43226, 43231); (43348, 43358); (43389, 43391); (43470, 43470);
   (43482, 43485); (43519, 43519); (43575, 43583); (43598, 43599); (43610, 43611);
   (43715, 43738); (43767, 43776); (43783, 43784); (43791, 43792); (43799, 43807);
   (43815, 43815); (43823, 43823); (43884, 43887); (44014, 44015); (44026, 44031);
   (55204, 55215); (55239, 55242); (55292, 63743); (64110, 64111); (64218, 64255);
   (64263, 64274); (64280, 64284); (64311, 64311); (64317, 64317); (64319, 64319);
   (64322, 64322); (64325, 64325); (64451, 64466); (64912, 64913); (64968, 64974);
   (64976, 65007); (65050, 65055); (65107, 65107); (65127, 65127); (65132, 65135);
   (65141, 65141); (65277, 65280); (65471, 65473); (65480, 65481); (65488, 65489);
   (65496, 65497); (65501, 65503); (65511, 65511); (65519, 65531); (65534, 65535);
   (65548, 65548); (65575, 65575); (65595, 65595); (65598, 65598); (65614, 65615);
   (65630, 65663); (65787, 65791); (65795, 65798); (65844, 65846); (65935, 65935);
   (65949, 65951); (65953, 65999); (66046, 66175); (66205, 66207); (66257, 66271);
   (66300, 66303); (66340, 66348); (66379, 66383); (66427, 66431); (66462, 66462);
   (66500, 66503); (66518, 66559); (66718, 66719); (66730, 66735); (66772, 66775);
   (66812, 66815); (66856, 66863); (66916, 66926); (66939, 66939); (66955, 66955);
   (66963, 66963); (66966, 66966); (66978, 66978); (66994, 66994); (67002, 67002);
   (67005, 67071); (67383, 67391); (67414, 67423); (67432, 67455); (67462, 67462);
   (67505, 67505); (67515, 67583); (67590, 67591); (67593, 67593); (67638, 67638);
   (67641, 67643); (67645, 67646); (67670, 67670); (67743, 67750); (67760, 67807);
   (67827, 67827); (67830, 67834); (67868, 67870); (67898, 67902); (67904, 67967);
   (68024, 68027); (68048, 68049); (68100, 68100); (68103, 68107); (68116, 68116);
   (68120, 68120); (68150, 68151); (68155, 68158); (68169, 68175); (68185, 68191);
   (68256, 68287); (68327, 68330); (68343, 68351); (68406, 68408); (68438, 68439);
   (68467, 68471); (68498, 68504); (68509, 68520); (68528, 68607); (68681, 68735);
   (68787, 68799); (68851, 68857); (68904, 68911); (68922, 69215); (69247, 69247);
   (69290, 69290); (69294, 69295); (69298, 69375); (69416, 69423); (69466, 69487);
   (69514, 69551); (69580, 69599); (69623, 69631); (69710, 69713); (69750, 69758);
   (69821, 69821); (69827, 69839); (69865, 69871); (69882, 69887); (69941, 69941);
   (69960, 69967); (70007, 70015); (70112, 70112); (70133, 70143); (70162, 70162);
   (70207, 70271); (70279, 70279); (70281, 70281); (70286, 70286); (70302, 70302);
   (70314, 70319); (70379, 70383); (70394, 70399); (70404, 70404); (70413, 70414);
   (70417, 70418); (70441, 70441); (70449, 70449); (70452, 70452); (70458, 70458);
   (70469, 70470); (70473, 70474); (70478, 70479); (70481, 70486); (70488, 70492);
   (70500, 70501); (70509, 70511); (70517, 70655); (70748, 70748); (70754, 70783);
   (70856, 70863); (70874, 71039); (71094, 71095); (71134, 71167); (71237, 71247);
   (71258, 71263); (71277, 71295); (71354, 71359); (71370, 71423); (71451, 71452);
   (71468, 71471); (71495, 71679); (71740, 71839); (71923, 71934); (71943, 71944);
   (71946, 71947); (71956, 71956); (71959, 71959); (71990, 71990); (71993, 71994);
   (72007, 72015); (72026, 72095); (72104, 72105); (72152, 72153); (72165, 72191);
   (72264, 72271); (72355, 72367); (72441, 72703); (72713, 72713); (72759, 72759);
   (72774, 72783); (72813, 72815); (72848, 72849); (72872, 72872); (72887, 72959);
   (72967, 72967); (72970, 72970); (73015, 73017); (73019, 73019); (73022, 73022);
   (73032, 73039); (73050, 73055); (73062, 73062); (73065, 73065); (73103, 73103);
   (73106, 73106); (73113, 73119); (73130, 73439); (73465, 73647); (73649, 73663);
   (73714, 73726); (74650, 74751); (74863, 74863); (74869, 74879); (75076, 77711);
   (77811, 77823); (78895, 82943); (83527, 92159); (92729, 92735); (92767, 92767);
   (92778, 92781); (92863, 92863); (92874, 92879); (92910, 92911); (92918, 92927);
   (92998, 93007); (93018, 93018); (93026, 93026); (93048, 93052); (93072, 93759);
   (93851, 93951); (94027, 94030); (94088, 94094); (94112, 94175); (94181, 94191);
   (94194, 94207); (100344, 100351); (101590, 101631); (101641, 110575); (110580, 110580);
   (110588, 110588); (110591, 110591); (110883, 110927); (110931, 110947); (110952, 110959);
   (111356, 113663); (113771, 113775); (113789, 113791); (113801, 113807); (113818, 113819);
   (113824, 118527); (118574, 118575); (118599, 118607); (118724, 118783); (119030, 119039);
   (119079, 119080); (119155, 119162); (119275, 119295); (119366, 119519); (119540, 119551);
   (119639, 119647); (119673, 119807); (119893, 119893); (119965, 119965); (119968, 119969);
   (119971, 119972); (119975, 119976); (119981, 119981); (119994, 119994); (119996, 119996);
   (120004, 120004); (120070, 120070); (120075, 120076); (120085, 120085); (120093, 120093);
   (120122, 120122); (120127, 120127); (120133, 120133); (120135, 120137); (120145, 120145);
   (120486, 120487); (120780, 120781); (121484, 121498); (121504, 121504); (121520, 122623);
   (122655, 122879); (122887, 122887); (122905, 122906); (122914, 122914); (122917, 122917);
   (122923, 123135); (123181, 123183); (123198, 123199); (123210, 123213); (123216, 123535);
   (123567, 123583); (123642, 123646); (123648, 124895); (124903, 124903); (124908, 124908);
   (124911, 124911); (124927, 124927); (125125, 125126); (125143, 125183); (125260, 125263);
   (125274, 125277); (125280, 126064); (126133, 126208); (126270, 126463); (126468, 126468);
   (126496, 126496); (126499, 126499); (126501, 126502); (126504, 126504); (126515, 126515);
   (126520, 126520); (126522, 126522); (126524, 126529); (126531, 126534); (126536, 126536);
   (126538, 126538); (126540, 126540); (126544, 126544); (126547, 126547); (126549, 126550);
   (126552, 126552); (126554, 126554); (126556, 126556); (126558, 126558); (126560, 126560);
   (126563, 126563); (126565, 126566); (126571, 126571); (126579, 126579); (126584, 126584);
   (126589, 126589); (126591, 126591); (126602, 126602); (126620, 126624); (126628, 126628);
   (126634, 126634); (126652, 126703); (126706, 126975); (127020, 127023); (127124, 127135);
   (127151, 127152); (127168, 127168); (127184, 127184); (127222, 127231); (127406, 127461);
   (127491, 127503); (127548, 127551); (127561, 127567); (127570, 127583); (127590, 127743);
   (128728, 128732); (128749, 128751); (128765, 128767); (128884, 128895); (128985, 128991);
   (129004, 129007); (129009, 129023); (129036, 129039); (129096, 129103); (129114, 129119);
   (129160, 129167); (129198, 129199); (129202, 129279); (129620, 129631); (129646, 129647);
   (129653, 129655); (129661, 129663); (129671, 129679); (129709, 129711); (129723, 129727);
   (129734, 129743); (129754, 129759); (129768, 129775); (129783, 129791); (129939, 129939);
   (129995, 130031); (130042, 131071); (173792, 173823); (177977, 177983); (178206, 178207);
   (183970, 183983); (191457, 194559); (195102, 196607); (201547, 917759); (918000, 1114111)
  ].

(** [Py_UNICODE_TODECIMAL]. *)
Definition to_decimal (c : Z) : option Z :=
  match List.find (fun z => (z <=? c) && (c <? z + 10)) decimal_zeros with
  | Some z => Some (c - z)
  | None => None
  end.

Definition is_unicode_space (c : Z) : bool :=
  existsb (Z.eqb c) unicode_spaces.

Definition is_printable (c : Z) : bool :=
  if c <? 128 then (32 <=? c) && (c <? 127)
  else negb (existsb (fun r => (fst r <=? c) && (c <=? snd r)) unprintable_ranges).

(** ** [float(x)] *)

Definition is_digit (c : ascii) : bool :=
  let n := nat_of_ascii c in ((48 <=? n) && (n <=? 57))%nat.

(** C's [isspace] in the C locale: tab, line feed, vertical tab, form feed,
    carriage return and space. *)
Definition is_space (c : ascii) : bool :=
  let n := nat_of_ascii c in (((9 <=? n) && (n <=? 13)) || (n =? 32))%nat.

Definition lower (c : ascii) : ascii :=
  let n := nat_of_ascii c in
  if ((65 <=? n) && (n <=? 90))%nat then ascii_of_nat (n + 32) else c.

Definition digit_value (c : ascii) : Z := Z.of_nat (nat_of_ascii c) - 48.

Definition digits_value (ds : list ascii) : Z :=
  fold_left (fun acc c => acc * 10 + digit_value c) ds 0.

Fixpoint span_digits (l : list ascii) : list ascii * list ascii :=
  match l with
  | c :: l' =>
      if is_digit c then let '(ds, r) := span_digits l' in (c :: ds, r)
      else ([], l)
  | [] => ([], [])
  end.

Fixpoint drop_spaces (l : list ascii) : list ascii :=
  match l with
  | c :: l' => if is_space c then drop_spaces l' else l
  | [] => []
  end.

Definition strip (l : list ascii) : list ascii :=
  rev (drop_spaces (rev (drop_spaces l))).

(** Underscores may group digits: one is legal only between two digits, and
    is dropped. *)
Fixpoint remove_underscores (prev : ascii) (l : list ascii) : option (list ascii) :=
  match l with
  | [] => if Ascii.eqb prev "_" then None else Some []
  | c :: l' =>
      if Ascii.eqb c "_" then
        if is_digit prev then remove_underscores c l' else None
      else if Ascii.eqb prev "_" && negb (is_digit c) then None
      else option_map (cons c) (remove_underscores c l')
  end.

Definition take_sign (l : list ascii) : bool * list ascii :=
  match l with
  | c :: l' =>
      if Ascii.eqb c "-" then (true, l')
      else if Ascii.eqb c "+" then (false, l')
      else (false, l)
  | [] => (false, [])
  end.

Definition list_ascii_eqb (a b : list ascii) : bool :=
  String.eqb (string_of_list_ascii a) (string_of_list_ascii b).

(** The grammar of [PyOS_string_to_double]: an optional sign, then [inf],
    [infinity] or [nan] in any case, or a decimal literal with at least one
    digit and an optional exponent.  The whole text must be consumed. *)
Definition parse_float (l : list ascii) : option float64 :=
  let '(neg, l1) := take_sign l in
  let word := map lower l1 in
  if list_ascii_eqb word (list_ascii_of_string "inf")
     || list_ascii_eqb word (list_ascii_of_string "infinity")
  then Some (S754_infinity neg)
  else if list_ascii_eqb word (list_ascii_of_string "nan") then Some S754_nan
  else
    let '(int_part, l2) := span_digits l1 in
    let '(frac_part, l3) :=
      match l2 with
      | c :: r => if Ascii.eqb c "." then span_digits r else ([], l2)
      | [] => ([], l2)
      end in
    let mantissa := digits_value (int_part ++ frac_part)%list in
    let scale := Z.of_nat (length frac_part) in
    match (int_part ++ frac_part)%list with
    | [] => None
    | _ :: _ =>
        match l3 with
        | [] => Some (float_of_decimal neg mantissa (- scale))
        | c :: r =>
            if Ascii.eqb (lower c) "e" then
              let '(eneg, r1) := take_sign r in
              let '(exp_part, r2) := span_digits r1 in
              match exp_part, r2 with
              | _ :: _, [] =>
                  Some (float_of_decimal neg mantissa
                          (cond_Zopp eneg (digits_value exp_part) - scale))
              | _, _ => None
              end
            else None
        end
    end.

(** [_PyUnicode_TransformDecimalAndSpaceToASCII]: code points below U+007F
    stay, white space becomes a blank, a decimal digit of any script becomes
    its ASCII digit, and anything else ends the text with a question mark. *)
Fixpoint transform_decimal_and_space (l : pystr) : list ascii :=
  match l with
  | [] => []
  | c :: l' =>
      if c <? 127 then char_of c :: transform_decimal_and_space l'
      else if is_unicode_space c then " "%char :: transform_decimal_and_space l'
      else
        match to_decimal c with
        | Some d => char_of (48 + d) :: transform_decimal_and_space l'
        | None => ["?"%char]
        end
  end.

(** [float(s)] on a [str]; [None] is [ValueError]. *)
Definition float_of_str (s : string) : option float64 :=
  match remove_underscores "000" (transform_decimal_and_space (decode_utf8 s)) with
  | Some l => parse_float (strip l)
  | None => None
  end.

(** One code point inside [repr(s)], for the quote [q] that surrounds it. *)
Definition repr_char (q : Z) (c : Z) : list ascii :=
  if (c =? q) || (c =? 92) then ["\"%char; char_of c]
  else if c =? 9 then ["\"%char; "t"%char]
  else if c =? 10 then ["\"%char; "n"%char]
  else if c =? 13 then ["\"%char; "r"%char]
  else if is_printable c then encode_utf8_char c
  else if c <? 256 then ("\"%char :: "x"%char :: hex_digits 2 c)
  else if c <? 65536 then ("\"%char :: "u"%char :: hex_digits 4 c)
  else ("\"%char :: "U"%char :: hex_digits 8 c).

(** [repr(s)]: apostrophes around the text, or double quotes when it holds
    an apostrophe and no double quote; the quote in use, the backslash and
    what is not printable are escaped. *)
Definition py_repr (s : string) : string :=
  let cs := decode_utf8 s in
  let q := if existsb (Z.eqb 39) cs && negb (existsb (Z.eqb 34) cs)
           then 34 else 39 in
  string_of_list_ascii
    ([char_of q] ++ flat_map (repr_char q) cs ++ [char_of q])%list.

(** [float(x)].  An [int] converts with rounding to nearest and overflows
    with [OverflowError]; [bool] is a subclass of [int]. *)
Definition py_float (x : pyval) : result float64 :=
  match x with
  | PyFloat f => Ret f
  | PyBool b => Ret (float_of_Z (if b then 1 else 0))
  | PyInt z =>
      match float_of_Z z with
      | S754_infinity _ =>
          Raise (Exn OverflowError "int too large to convert to float")
      | f => Ret f
      end
  | PyStr s =>
      match float_of_str s with
      | Some f => Ret f
      | None =>
          Raise (Exn ValueError
                   ("could not convert string to float: " ++ py_repr s))
      end
  | PyNone | PyList _ | PyDict _ =>
      Raise (Exn TypeError
               ("float() argument must be a string or a real number, not '"
                  ++ type_name x ++ "'"))
  end.

(** ** The state of the service *)

Inductive log_level := INFO | WARNING | ERROR.

(** A call of [logger]: the f-string's text and the values it formats. *)
Record log_record := LogRecord {
  log_level_of : log_level;
  log_message : string;
  log_args : list pyval }.

(** A row of [locations].  [timestamp] and [created_at] are SQLite's
    second-resolution UTC times, here seconds since the epoch. *)
Record location := Location {
  loc_id : Z;
  loc_latitude : float64;
  loc_longitude : float64;
  loc_timestamp : Z;
  loc_created_at : Z }.

(** A row of [error_logs]. *)
Record error_log := ErrorLog {
  err_id : Z;
  err_message : pystr;
  err_endpoint : pystr;
  err_created_at : Z }.

(** The two tables, each with the last identifier AUTOINCREMENT handed out. *)
Record database := Database {
  locations : list location;
  locations_seq : Z;
  error_logs : list error_log;
  error_logs_seq : Z }.

(** What SQLite does to the next [with get_db() as conn] block: [connect]
    fails, or a statement or the commit fails and the block rolls back. *)
Inductive db_fault :=
| ConnectFault (msg : string)
| StatementFault (msg : string).

(** [request.remote_addr]: a string or [None]. *)
Definition client_key : Type := option string.

Record world := World {
  requests : gmap client_key (list float64); (* the dict of [rate_limit] *)
  db : database;
  db_faults : list (option db_fault);        (* outcomes of the next blocks *)
  now : float64;                             (* [datetime.now().timestamp()] *)
  sql_now : Z;                               (* [datetime('now')] *)
  oplog : list log_record }.

Definition set_requests (r : gmap client_key (list float64)) (w : world) : world :=
  World r (db w) (db_faults w) (now w) (sql_now w) (oplog w).
Definition set_db (d : database) (w : world) : world :=
  World (requests w) d (db_faults w) (now w) (sql_now w) (oplog w).
Definition set_db_faults (fs : list (option db_fault)) (w : world) : world :=
  World (requests w) (db w) fs (now w) (sql_now w) (oplog w).
Definition set_oplog (l : list log_record) (w : world) : world :=
  World (requests w) (db w) (db_faults w) (now w) (sql_now w) l.

(** ** State and exceptions *)

Definition M (A : Type) : Type := world -> result A * world.

Definition ret {A} (a : A) : M A := fun w => (Ret a, w).
Definition raise {A} (e : exn) : M A := fun w => (Raise e, w).
Definition lift {A} (r : result A) : M A := fun w => (r, w).
Definition bind {A B} (m : M A) (k : A -> M B) : M B :=
  fun w =>
    match m w with
    | (Ret a, w') => k a w'
    | (Raise e, w') => (Raise e, w')
    end.

Notation "x <- m ;; k" := (bind m (fun x => k))
  (at level 100, m at next level, right associativity).
Notation "m ;;; k" := (bind m (fun _ => k))
  (at level 100, right associativity).

(** [try: body except classes as e: handler e].  The state reached when the
    exception was raised is kept. *)
Definition try_except {A} (body : M A) (catches : exn_class -> bool)
    (handler : exn -> M A) : M A :=
  fun w =>
    match body w with
    | (Raise e, w') =>
        if catches (exn_class_of e) then handler e w' else (Raise e, w')
    | r => r
    end.

Definition logger (lvl : log_level) (msg : string) (args : list pyval) : M unit :=
  fun w => (Ret tt, set_oplog (oplog w ++ [LogRecord lvl msg args]) w).

Definition is_SQLiteError (c : exn_class) : bool :=
  match c with SQLiteError => true | _ => false end.

(** [UnicodeEncodeError] is a subclass of [ValueError]. *)
Definition is_ValueError_or_TypeError (c : exn_class) : bool :=
  match c with ValueError | TypeError | UnicodeEncodeError => true | _ => false end.

Definition is_Exception (c : exn_class) : bool := true.

(** ** Configuration *)

Module Config.
Definition DATABASE : string := "geodata.db".
Definition MAX_COORDINATE_VALUE : list (string * Z) :=
  [("latitude", 90); ("longitude", 180)].
Definition MIN_COORDINATE_VALUE : list (string * Z) :=
  [("latitude", -90); ("longitude", -180)].
End Config.

(** [d[k]] on a class constant; the keys the code reads are all present. *)
Fixpoint subscript (d : list (string * Z)) (k : string) : Z :=
  match d with
  | [] => 0
  | (k', v) :: d' => if String.eqb k' k then v else subscript d' k
  end.

(** ** Storage *)

(** [with get_db() as conn: body].  The next entry of [db_faults] decides the
    block.  [get_db] logs and re-raises a failure of [connect]; a failing
    statement or commit raises from inside the block, which rolls back.  In
    every block of [app.py] the statements come before any other effect, so
    a failing block leaves no trace but the exception. *)
Definition with_get_db {A} (body : M A) : M A :=
  fun w =>
    match db_faults w with
    | [] => body w
    | None :: rest => body (set_db_faults rest w)
    | Some (ConnectFault msg) :: rest =>
        bind (logger ERROR "Ошибка подключения к БД: {e}" [PyStr msg])
             (fun _ => raise (Exn SQLiteError msg))
             (set_db_faults rest w)
    | Some (StatementFault msg) :: rest =>
        (Raise (Exn SQLiteError msg), set_db_faults rest w)
    end.

(** [INSERT INTO locations (latitude, longitude, timestamp) VALUES (?, ?,
    datetime('now'))], returning [cursor.lastrowid]. *)
Definition insert_location (lat lon : float64) : M Z :=
  fun w =>
    let d := db w in
    let id := locations_seq d + 1 in
    let row := Location id lat lon (sql_now w) (sql_now w) in
    (Ret id,
     set_db (Database (locations d ++ [row]) id (error_logs d) (error_logs_seq d)) w).

(** [INSERT INTO error_logs (error_message, endpoint) VALUES (?, ?)]. *)
Definition insert_error_log (message endpoint : pystr) : M unit :=
  fun w =>
    let d := db w in
    let id := error_logs_seq d + 1 in
    let row := ErrorLog id message endpoint (sql_now w) in
    (Ret tt,
     set_db (Database (locations d) (locations_seq d) (error_logs d ++ [row]) id) w).

(** [ORDER BY timestamp DESC LIMIT 1].  SQL leaves the order of rows with
    equal timestamps open; the later row wins here. *)
Definition latest (rows : list location) : option location :=
  fold_left
    (fun best r =>
       match best with
       | Some b => if loc_timestamp b <=? loc_timestamp r then Some r else Some b
       | None => Some r
       end)
    rows None.

(** [ORDER BY timestamp ASC LIMIT 1]; of equal timestamps the earlier row
    wins. *)
Definition earliest (rows : list location) : option location :=
  fold_left
    (fun best r =>
       match best with
       | Some b => if loc_timestamp r <? loc_timestamp b then Some r else Some b
       | None => Some r
       end)
    rows None.

(** ** [validate_coordinates] *)

Definition validate_coordinates (latitude longitude : pyval)
    : M (option (float64 * float64)) :=
  try_except
    (lat <- lift (py_float latitude) ;;
     lon <- lift (py_float longitude) ;;
     if negb (int_le_float (subscript Config.MIN_COORDINATE_VALUE "latitude") lat
              && float_le_int lat (subscript Config.MAX_COORDINATE_VALUE "latitude"))
     then
       logger WARNING "Некорректная широта: {lat}" [PyFloat lat] ;;;
       ret None
     else if negb (int_le_float (subscript Config.MIN_COORDINATE_VALUE "longitude") lon
                   && float_le_int lon (subscript Config.MAX_COORDINATE_VALUE "longitude"))
     then
       logger WARNING "Некорректная долгота: {lon}" [PyFloat lon] ;;;
       ret None
     else ret (Some (lat, lon)))
    is_ValueError_or_TypeError
    (fun e =>
       logger WARNING "Ошибка преобразования координат: {e}" [PyStr (exn_str e)] ;;;
       ret None).

(** ** [log_error_to_db] *)

(** The first run of lone surrogates in a text: where it starts, where it
    ends and its first code point. *)
Fixpoint first_surrogates (i : nat) (s : pystr) : option (nat * nat * Z) :=
  match s with
  | [] => None
  | c :: s' =>
      if is_surrogate c then
        let run := (fix count (l : pystr) : nat :=
                      match l with
                      | c' :: l' => if is_surrogate c' then S (count l') else O
                      | [] => O
                      end) s' in
        Some (i, (i + run)%nat, c)
      else first_surrogates (S i) s'
  end.

(** The exception of the UTF-8 encoder on a [str] it cannot encode. *)
Definition utf8_encode_error (s : pystr) : option exn :=
  match first_surrogates 0 s with
  | None => None
  | Some (i, j, c) =>
      let position := NilZero.string_of_uint (Nat.to_uint i) in
      Some (Exn UnicodeEncodeError
              (if (i =? j)%nat then
                 "'utf-8' codec can't encode character '\u"
                   ++ string_of_list_ascii (hex_digits 4 c)
                   ++ "' in position " ++ position ++ ": surrogates not allowed"
               else
                 "'utf-8' codec can't encode characters in position "
                   ++ position ++ "-" ++ NilZero.string_of_uint (Nat.to_uint j)
                   ++ ": surrogates not allowed"))
  end.

(** Binding the [str] parameters of a statement, in order: each is encoded
    as UTF-8. *)
Fixpoint bind_parameters (params : list pystr) : result unit :=
  match params with
  | [] => Ret tt
  | p :: params' =>
      match utf8_encode_error p with
      | Some e => Raise e
      | None => bind_parameters params'
      end
  end.

(** A storage block whose statement has [str] parameters.  They are bound
    after [connect] and before the statement runs: when [connect] fails the
    parameters are never looked at; otherwise a parameter that cannot be
    encoded raises before the statement or the commit can fail, and the block
    ends there. *)
Definition with_get_db_bound {A} (params : list pystr) (body : M A) : M A :=
  fun w =>
    match db_faults w with
    | Some (ConnectFault _) :: _ => with_get_db body w
    | _ =>
        match bind_parameters params with
        | Raise e => (Raise e, set_db_faults (tl (db_faults w)) w)
        | Ret _ => with_get_db body w
        end
    end.

Definition log_error_to_db (error_message endpoint : pystr) : M unit :=
  try_except
    (with_get_db_bound [take 500 error_message; endpoint]
       (insert_error_log (take 500 error_message) endpoint))
    is_SQLiteError
    (fun e => logger ERROR "Не удалось записать ошибку в БД: {e}" [PyStr (exn_str e)]).

(** ** Requests and responses *)

(** What a handler reads of Flask's [request]; [get_json] is the value of
    [request.get_json(silent=True)], [PyNone] for a body that does not parse. *)
Record request := Request {
  is_json : bool;
  remote_addr : client_key;
  get_json : pyval }.

(** The dictionaries given to [jsonify], one constructor per shape. *)
Inductive body :=
| ErrorBody (error : string)
| SavedBody (status message : string) (location_id : Z) (lat lon : float64)
| StatisticsBody (status : string) (total_locations : Z)
    (last_location : option (float64 * float64 * Z))
    (first_record_date : option Z)
| HealthBody (status database : string) (timestamp : float64)
| UnhealthyBody (status database error : string).

Record response := Response { resp_body : body; resp_status : Z }.

(** ** The decorators *)

Definition require_json (f : request -> M response) : request -> M response :=
  fun request =>
    if negb (is_json request) then
      logger WARNING "Запрос без Content-Type: application/json" [] ;;;
      ret (Response (ErrorBody "Content-Type должен быть application/json") 415)
    else f request.

(** The test of the pruning comprehension: [current_time - req_time < window]. *)
Definition in_window (window : Z) (current_time req_time : float64) : bool :=
  float_lt_int (float_sub current_time req_time) window.

(** What [decorated_function] of [rate_limit] does to its dictionary before
    it answers: prune the client's list, compare its length with the limit,
    append the current time when the request is let through.  The flag tells
    whether the wrapped view is called. *)
Definition allow (max_requests window : Z) (client_ip : client_key)
    (current_time : float64) (requests : gmap client_key (list float64))
    : bool * gmap client_key (list float64) :=
  let pruned :=
    List.filter (in_window window current_time)
                (default [] (requests !! client_ip)) in
  if max_requests <=? Z.of_nat (length pruned) then
    (false, <[client_ip := pruned]> requests)
  else
    (true, <[client_ip := (pruned ++ [current_time])%list]> requests).

Definition rate_limit (max_requests window : Z) (f : request -> M response)
    : request -> M response :=
  fun request w =>
    let client_ip := remote_addr request in
    let current_time := now w in
    let '(admitted, requests') :=
      allow max_requests window client_ip current_time (requests w) in
    if admitted then f request (set_requests requests' w)
    else
      (logger WARNING "Превышен лимит запросов для IP: {client_ip}"
              [match client_ip with Some a => PyStr a | None => PyNone end] ;;;
       ret (Response (ErrorBody "Превышен лимит запросов. Попробуйте позже.") 429))
        (set_requests requests' w).

(** ** The views *)

(** The inner [try] of [save_location]: the insert in its storage block and
    the [except SQLiteError] clause. *)
Definition persist_location (lat lon : float64) : M response :=
  try_except
    (with_get_db
       (location_id <- insert_location lat lon ;;
        logger INFO
          "Сохранена локация ID: {location_id}, lat: {lat}, lon: {lon}"
          [PyInt location_id; PyFloat lat; PyFloat lon] ;;;
        ret (Response
               (SavedBody "OK" "Локация сохранена успешно" location_id lat lon)
               200)))
    is_SQLiteError
    (fun e =>
       logger ERROR "Ошибка базы данных: {e}" [PyStr (exn_str e)] ;;;
       log_error_to_db (decode_utf8 (exn_str e)) (decode_utf8 "/save_location") ;;;
       ret (Response
              (ErrorBody "Внутренняя ошибка сервера при сохранении данных")
              500)).

(** The clause [except Exception] that closes [save_location]. *)
Definition on_unexpected (e : exn) : M response :=
  logger ERROR "Неожиданная ошибка: {e}" [PyStr (exn_str e)] ;;;
  log_error_to_db (decode_utf8 (exn_str e)) (decode_utf8 "/save_location") ;;;
  ret (Response (ErrorBody "Внутренняя ошибка сервера") 500).

(** The body of [save_location], below its decorators. *)
Definition save_location_view (request : request) : M response :=
  try_except
    (let data := get_json request in
     if negb (truthy data) then
       logger WARNING "Получен пустой JSON" [] ;;;
       ret (Response (ErrorBody "Неверный формат JSON") 400)
     else
       lat <- lift (py_get data "latitude") ;;
       lon <- lift (py_get data "longitude") ;;
       if is_none lat || is_none lon then
         logger WARNING "Отсутствуют координаты в запросе" [] ;;;
         ret (Response
                (ErrorBody "Отсутствуют обязательные поля: latitude и longitude")
                400)
       else
         validated_coords <- validate_coordinates lat lon ;;
         match validated_coords with
         | None => ret (Response (ErrorBody "Неверные координаты") 400)
         | Some (lat, lon) => persist_location lat lon
         end)
    is_Exception
    on_unexpected.

(** [POST /save_location]: [@require_json] outside [@rate_limit(60, 60)]. *)
Definition save_location : request -> M response :=
  require_json (rate_limit 60 60 save_location_view).

(** [GET /statistics]. *)
Definition get_statistics : M response :=
  try_except
    (with_get_db
       (fun w =>
          let rows := locations (db w) in
          let total := Z.of_nat (length rows) in
          let last_location :=
            option_map
              (fun r => (loc_latitude r, loc_longitude r, loc_timestamp r))
              (latest rows) in
          let first_record := earliest rows in
          ret (Response
                 (StatisticsBody "OK" total last_location
                    (match first_record with
                     | Some r => Some (loc_timestamp r)
                     | None => None
                     end))
                 200) w))
    is_SQLiteError
    (fun e =>
       logger ERROR "Ошибка при получении статистики: {e}" [PyStr (exn_str e)] ;;;
       ret (Response (ErrorBody "Ошибка получения статистики") 500)).

(** [SELECT 1]: one row, whatever the tables hold. *)
Definition select_1 : M (option (list (string * Z))) :=
  ret (Some [("1", 1)]).

(** [GET /health]. *)
Definition health_check : M response :=
  try_except
    (db_ok <- with_get_db
                (row <- select_1 ;;
                 ret (match row with Some _ => true | None => false end)) ;;
     fun w =>
       ret (Response
              (HealthBody "healthy"
                          (if db_ok then "connected" else "disconnected")
                          (now w))
              200) w)
    is_SQLiteError
    (fun e =>
       logger ERROR "Ошибка проверки здоровья: {e}" [PyStr (exn_str e)] ;;;
       ret (Response (UnhealthyBody "unhealthy" "disconnected" (exn_str e)) 503)).

(** ** Observations used by the statements *)

(** The world after one more record in the operational log. *)
Definition logged (r : log_record) (w : world) : world :=
  set_oplog (oplog w ++ [r]) w.

(** The fault awaiting the next storage block, if any. *)
Definition next_fault (w : world) : option db_fault :=
  match db_faults w with
  | f :: _ => f
  | [] => None
  end.

Definition fault_message (ev : db_fault) : string :=
  match ev with ConnectFault msg | StatementFault msg => msg end.

(** The world a failing storage block leaves: the fault is consumed, and a
    failure of [connect] is logged by [get_db]. *)
Definition after_fault (ev : db_fault) (w : world) : world :=
  match ev with
  | ConnectFault msg =>
      logged (LogRecord ERROR "Ошибка подключения к БД: {e}" [PyStr msg])
             (set_db_faults (tl (db_faults w)) w)
  | StatementFault _ => set_db_faults (tl (db_faults w)) w
  end.

(** The status of an answer, when the handler returned one. *)
Definition resp_status_of (r : result response) : option Z :=
  match r with
  | Ret resp => Some (resp_status resp)
  | Raise _ => None
  end.

(** The body of the 500 answer to a storage error. *)
Definition storage_error_response : response :=
  Response (ErrorBody "Внутренняя ошибка сервера при сохранении данных") 500.

(** The row a successful insert adds. *)
Definition inserted_row (lat lon : float64) (w : world) : location :=
  Location (locations_seq (db w) + 1) lat lon (sql_now w) (sql_now w).

(** The two range tests of [validate_coordinates]. *)
Definition latitude_ok (lat : float64) : bool :=
  int_le_float (-90) lat && float_le_int lat 90.

Definition longitude_ok (lon : float64) : bool :=
  int_le_float (-180) lon && float_le_int lon 180.

(** The coordinates a decoded body submits: it is a non-empty dictionary,
    both fields are present and not null, both convert and both are in
    range.  These are the bodies that reach the insert. *)
Definition submitted_coordinates (data : pyval) : option (float64 * float64) :=
  if truthy data then
    match py_get data "latitude", py_get data "longitude" with
    | Ret lat, Ret lon =>
        if is_none lat || is_none lon then None
        else
          match py_float lat, py_float lon with
          | Ret lat', Ret lon' =>
              if latitude_ok lat' && longitude_ok lon' then Some (lat', lon')
              else None
          | _, _ => None
          end
    | _, _ => None
    end
  else None.

(** [float(x)] fails with one of the two classes the validator catches. *)
Definition conversion_fails (x : pyval) : Prop :=
  exists e, py_float x = Raise e /\ is_ValueError_or_TypeError (exn_class_of e) = true.

(** The limiter run over a sequence of calls, oldest first: the decisions
    and the dictionary left behind. *)
Fixpoint run_allow (max_requests window : Z) (calls : list (client_key * float64))
    (requests : gmap client_key (list float64))
    : list bool * gmap client_key (list float64) :=
  match calls with
  | [] => ([], requests)
  | (client_ip, current_time) :: rest =>
      let '(admitted, requests') :=
        allow max_requests window client_ip current_time requests in
      let '(decisions, requests'') := run_allow max_requests window rest requests' in
      (admitted :: decisions, requests'')
  end.

(** The time of each client's latest call. *)
Definition last_calls (calls : list (client_key * float64))
    (seen : gmap client_key float64) : gmap client_key float64 :=
  fold_left (fun acc c => <[fst c := snd c]> acc) calls seen.

(** The invariant of one client's list, given the time of that client's
    latest call: at most [max_requests] entries, all inside the window that
    ends at that call. *)
Definition window_bounded (max_requests window : Z) (seen : option float64)
    (l : list float64) : Prop :=
  Z.of_nat (length l) <= max_requests /\
  exists last, seen = Some last /\
    Forall (fun t => in_window window last t = true) l.

Definition limiter_inv (max_requests window : Z)
    (m : gmap client_key (list float64)) (seen : gmap client_key float64) : Prop :=
  forall k l, m !! k = Some l -> window_bounded max_requests window (seen !! k) l.

(** The limiter as the specification words it: entries older than
    [now - window_seconds] are pruned, so an entry exactly [window_seconds]
    old stays. *)
Definition spec_allow (max_requests window : Z) (client_ip : client_key)
    (current_time : float64) (requests : gmap client_key (list float64))
    : bool * gmap client_key (list float64) :=
  let pruned :=
    List.filter (fun req_time => float_le_int (float_sub current_time req_time) window)
                (default [] (requests !! client_ip)) in
  if max_requests <=? Z.of_nat (length pruned) then
    (false, <[client_ip := pruned]> requests)
  else
    (true, <[client_ip := (pruned ++ [current_time])%list]> requests).

(** The service after [init_database] on a fresh file: no client seen, both
    tables empty, storage sound. *)
Definition initial_world : world :=
  World ∅ (Database [] 0 [] 0) [] (S754_zero false) 0 [].

Definition conversion_warning (e : exn) : log_record :=
  LogRecord WARNING "Ошибка преобразования координат: {e}" [PyStr (exn_str e)].

Definition latitude_warning (lat : float64) : log_record :=
  LogRecord WARNING "Некорректная широта: {lat}" [PyFloat lat].

Definition longitude_warning (lon : float64) : log_record :=
  LogRecord WARNING "Некорректная долгота: {lon}" [PyFloat lon].

(** ** Routing and request sequences *)

(** The handler of [@app.errorhandler(404)]. *)
Definition not_found : M response :=
  ret (Response (ErrorBody "Ресурс не найден") 404).

(** The routes of the application; anything else is unmatched. *)
Inductive endpoint :=
| PostSaveLocation (r : request)
| GetStatistics
| GetHealth
| Unmatched.

Definition dispatch (e : endpoint) : M response :=
  match e with
  | PostSaveLocation r => save_location r
  | GetStatistics => get_statistics
  | GetHealth => health_check
  | Unmatched => not_found
  end.

(** One request as the process meets it: the two clock readings at that
    moment, what storage is about to do, and the route taken. *)
Record arrival := Arrival {
  arr_now : float64;
  arr_sql_now : Z;
  arr_faults : list (option db_fault);
  arr_endpoint : endpoint }.

(** The world when the request arrives: the limiter, the tables and the log
    are what the previous request left. *)
Definition arrive (a : arrival) (w : world) : world :=
  World (requests w) (db w) (arr_faults a) (arr_now a) (arr_sql_now a) (oplog w).

Definition serve_one (w : world) (a : arrival) : world :=
  snd (dispatch (arr_endpoint a) (arrive a w)).

(** The process serving a sequence of requests, oldest first. *)
Definition serve (arrivals : list arrival) (w : world) : world :=
  fold_left serve_one arrivals w.

(** A stored row inside the coordinate bounds. *)
Definition row_in_bounds (r : location) : Prop :=
  latitude_ok (loc_latitude r) = true /\ longitude_ok (loc_longitude r) = true.

(** The decisions that concern one client, out of the decisions of a run. *)
Fixpoint decisions_for (k : client_key) (calls : list (client_key * float64))
    (decisions : list bool) : list bool :=
  match calls, decisions with
  | (k', _) :: calls', d :: decisions' =>
      if decide (k' = k) then d :: decisions_for k calls' decisions'
      else decisions_for k calls' decisions'
  | _, _ => []
  end.

(** The calls of one client, in order. *)
Definition calls_of (k : client_key) (calls : list (client_key * float64))
    : list (client_key * float64) :=
  List.filter (fun c => bool_decide (fst c = k)) calls.

(** What one request can do to the tables. *)

(** Nothing, and no storage block was opened. *)
Definition tables_untouched (w w' : world) : Prop :=
  db w' = db w /\ db_faults w' = db_faults w.

(** One location row more, nothing else. *)
Definition location_saved (lat lon : float64) (w w' : world) : Prop :=
  db w' = Database (locations (db w) ++ [inserted_row lat lon w])
                   (locations_seq (db w) + 1)
                   (error_logs (db w)) (error_logs_seq (db w)).

(** No location row; the error log as it was, or one row more for
    ["/save_location"] with the first 500 characters of a message. *)
Definition error_logged (w w' : world) : Prop :=
  locations (db w') = locations (db w) /\
  locations_seq (db w') = locations_seq (db w) /\
  ((error_logs (db w') = error_logs (db w) /\
    error_logs_seq (db w') = error_logs_seq (db w)) \/
   (exists msg,
      error_logs (db w') =
        (error_logs (db w) ++
           [ErrorLog (error_logs_seq (db w) + 1) (take 500 msg)
                     (decode_utf8 "/save_location") (sql_now w)])%list /\
      error_logs_seq (db w') = error_logs_seq (db w) + 1)).

(** * Properties *)

(** ** Floats *)

Lemma float_cmp_int_finite (f : float64) (z : Z) :
  is_finite f = true ->
  exists c, float_cmp_int f z = Some c /\
    c = (fst (float_num_den f) ?= z * snd (float_num_den f)).
Proof.
  destruct f as [s | s | | s m e]; cbn [is_finite float_cmp_int float_num_den];
    try discriminate; intros _.
  - exists (0 ?= z). cbn [fst snd]. rewrite Z.mul_1_r. split; reflexivity.
  - destruct (0 <=? e); cbn [fst snd]; eexists; split; try reflexivity.
    rewrite Z.mul_1_r. reflexivity.
Qed.

Lemma float_num_den_pos (f : float64) : 0 < snd (float_num_den f).
Proof.
  destruct f as [s | s | | s m e]; simpl; try lia.
  destruct (0 <=? e) eqn:He; simpl; [lia |].
  apply Z.pow_pos_nonneg; lia.
Qed.

(** The chained comparison [lo <= f <= hi] holds exactly for a finite [f]
    whose value lies between the two integers: NaN and the infinities fail
    it. *)
Lemma range_test_spec (lo hi : Z) (f : float64) :
  int_le_float lo f && float_le_int f hi = true <->
  is_finite f = true /\
  lo * snd (float_num_den f) <= fst (float_num_den f) <= hi * snd (float_num_den f).
Proof.
  unfold int_le_float, float_le_int.
  destruct (is_finite f) eqn:Hfin.
  - destruct (float_cmp_int_finite f lo Hfin) as (c1 & -> & ->).
    destruct (float_cmp_int_finite f hi Hfin) as (c2 & -> & ->).
    rewrite andb_true_iff.
    destruct (Z.compare_spec (fst (float_num_den f)) (lo * snd (float_num_den f)));
      destruct (Z.compare_spec (fst (float_num_den f)) (hi * snd (float_num_den f)));
      split; intros; try lia; try (split; [reflexivity | lia]); try tauto;
      try (exfalso; lia); intuition (try discriminate; try lia).
  - split; [| intros [? _]; discriminate].
    destruct f as [s | [] | | s m e]; simpl in *; try discriminate.
Qed.

Lemma range_test_nan (lo hi : Z) :
  int_le_float lo S754_nan && float_le_int S754_nan hi = false.
Proof. reflexivity. Qed.

Lemma range_test_infinity (lo hi : Z) (s : bool) :
  int_le_float lo (S754_infinity s) && float_le_int (S754_infinity s) hi = false.
Proof. destruct s; reflexivity. Qed.

Lemma float_sub_diag (f : float64) :
  is_finite f = true -> float_sub f f = S754_zero false.
Proof.
  destruct f as [[] | s | | s m e]; simpl; try discriminate; try reflexivity.
  intros _. unfold float_sub, SFsub. rewrite Z.sub_diag. reflexivity.
Qed.

Lemma in_window_diag (window : Z) (t : float64) :
  0 < window -> is_finite t = true -> in_window window t t = true.
Proof.
  intros Hw Hfin. unfold in_window. rewrite float_sub_diag by assumption.
  unfold float_lt_int; simpl.
  destruct window; [lia | reflexivity | lia].
Qed.

(** ** The validator *)

(** [validate_coordinates], one case per path through its body. *)
Lemma validate_coordinates_unfold (latitude longitude : pyval) (w : world) :
  validate_coordinates latitude longitude w =
  let on_error e :=
    if is_ValueError_or_TypeError (exn_class_of e)
    then (Ret None, logged (conversion_warning e) w)
    else (Raise e, w) in
  match py_float latitude with
  | Raise e => on_error e
  | Ret lat =>
      match py_float longitude with
      | Raise e => on_error e
      | Ret lon =>
          if negb (latitude_ok lat) then
            (Ret None, logged (latitude_warning lat) w)
          else if negb (longitude_ok lon) then
            (Ret None, logged (longitude_warning lon) w)
          else (Ret (Some (lat, lon)), w)
      end
  end.
Proof.
  unfold validate_coordinates, try_except, bind, lift.
  destruct (py_float latitude) as [lat | e1].
  - destruct (py_float longitude) as [lon | e2].
    + change (subscript Config.MIN_COORDINATE_VALUE "latitude") with (-90).
      change (subscript Config.MAX_COORDINATE_VALUE "latitude") with 90.
      change (subscript Config.MIN_COORDINATE_VALUE "longitude") with (-180).
      change (subscript Config.MAX_COORDINATE_VALUE "longitude") with 180.
      fold (latitude_ok lat). fold (longitude_ok lon).
      destruct (latitude_ok lat); [destruct (longitude_ok lon) |]; reflexivity.
    + cbv zeta. destruct (is_ValueError_or_TypeError (exn_class_of e2)); reflexivity.
  - cbv zeta. destruct (is_ValueError_or_TypeError (exn_class_of e1)); reflexivity.
Qed.

(** The validator touches nothing but the operational log. *)
Lemma validate_coordinates_frame (latitude longitude : pyval) (w : world) :
  let w' := snd (validate_coordinates latitude longitude w) in
  requests w' = requests w /\ db w' = db w /\ db_faults w' = db_faults w /\
  now w' = now w /\ sql_now w' = sql_now w.
Proof.
  rewrite validate_coordinates_unfold. cbv zeta.
  destruct (py_float latitude) as [lat | e1];
    [destruct (py_float longitude) as [lon | e2];
     [destruct (latitude_ok lat); [destruct (longitude_ok lon) |]
     | destruct (is_ValueError_or_TypeError (exn_class_of e2))]
    | destruct (is_ValueError_or_TypeError (exn_class_of e1))];
    simpl; auto.
Qed.

(** Acceptance returns the two converted numbers, and happens exactly when
    both inputs convert to finite floats inside the bounds. *)
Lemma validate_coordinates_accepts_iff (latitude longitude : pyval) (w : world)
    (lat lon : float64) :
  fst (validate_coordinates latitude longitude w) = Ret (Some (lat, lon)) <->
  py_float latitude = Ret lat /\ py_float longitude = Ret lon /\
  latitude_ok lat = true /\ longitude_ok lon = true.
Proof.
  rewrite validate_coordinates_unfold. cbv zeta.
  destruct (py_float latitude) as [lat' | e1].
  - destruct (py_float longitude) as [lon' | e2].
    + destruct (latitude_ok lat') eqn:Hlat; [destruct (longitude_ok lon') eqn:Hlon |];
        simpl; split; try discriminate.
      * intros [= -> ->]. auto.
      * intros ([= ->] & [= ->] & _). reflexivity.
      * intros ([= ->] & [= ->] & _ & H). congruence.
      * intros ([= ->] & [= ->] & H & _). congruence.
    + destruct (is_ValueError_or_TypeError (exn_class_of e2)); simpl;
        split; try discriminate; intros (_ & H & _); discriminate.
  - destruct (is_ValueError_or_TypeError (exn_class_of e1)); simpl;
      split; try discriminate; intros (H & _); discriminate.
Qed.

(** Every input that converts but fails a range test is rejected with
    [None]. *)
Lemma validate_coordinates_out_of_range (latitude longitude : pyval) (w : world)
    (lat lon : float64) :
  py_float latitude = Ret lat -> py_float longitude = Ret lon ->
  latitude_ok lat && longitude_ok lon = false ->
  fst (validate_coordinates latitude longitude w) = Ret None.
Proof.
  intros Ha Hb Hr. rewrite validate_coordinates_unfold, Ha, Hb. cbv zeta.
  destruct (latitude_ok lat); [destruct (longitude_ok lon) |];
    simpl in *; congruence.
Qed.

(** Every input whose conversion raises [ValueError] or [TypeError] is
    rejected with [None]. *)
Lemma validate_coordinates_conversion_fails (latitude longitude : pyval) (w : world) :
  conversion_fails latitude \/
  ((exists lat, py_float latitude = Ret lat) /\ conversion_fails longitude) ->
  fst (validate_coordinates latitude longitude w) = Ret None.
Proof.
  rewrite validate_coordinates_unfold. cbv zeta.
  intros [(e & -> & ->) | ((lat & ->) & e & -> & ->)]; reflexivity.
Qed.

(** C1 (failing input).  The claim has every input that does not convert
    to a finite in-range float rejected with [None].  A Python [int] too
    large for a double makes [float] raise [OverflowError], which the
    [except (ValueError, TypeError)] clause does not catch: at latitude
    [10**309] the validator raises where its docstring promises [None], and
    the request is answered 500 instead of 400. *)
Theorem validate_coordinates_overflow_escapes (w : world) :
  (forall lat, py_float (PyInt (10 ^ 309)) <> Ret lat) /\
  validate_coordinates (PyInt (10 ^ 309)) (PyInt 0) w =
    (Raise (Exn OverflowError "int too large to convert to float"), w) /\
  resp_status_of
    (fst (save_location
            (Request true (Some "203.0.113.7")
                     (PyDict [("latitude", PyInt (10 ^ 309)); ("longitude", PyInt 0)]))
            initial_world)) = Some 500.
Proof.
  assert (H : py_float (PyInt (10 ^ 309)) =
              Raise (Exn OverflowError "int too large to convert to float"))
    by (vm_compute; reflexivity).
  split; [| split].
  - intros lat. rewrite H. discriminate.
  - rewrite validate_coordinates_unfold, H. reflexivity.
  - vm_compute. reflexivity.
Qed.

(** C3 (counterexample).  The claim wants the results of some unparsable
    input and some out-of-range input to differ.  They never do: the text
    ["abc"] and the latitude 999 are both answered [None], and so is every
    other pair of such inputs. *)
Lemma validate_coordinates_rejections_coincide :
  (fst (validate_coordinates (PyStr "abc") (PyInt 0) initial_world) = Ret None /\
   fst (validate_coordinates (PyInt 999) (PyInt 0) initial_world) = Ret None) /\
  ~ exists (a b c d : pyval) (w : world),
      (conversion_fails a \/
       ((exists lat, py_float a = Ret lat) /\ conversion_fails b)) /\
      (exists lat lon, py_float c = Ret lat /\ py_float d = Ret lon /\
                       latitude_ok lat && longitude_ok lon = false) /\
      fst (validate_coordinates a b w) <> fst (validate_coordinates c d w).
Proof.
  split.
  - split; vm_compute; reflexivity.
  - intros (a & b & c & d & w & Hconv & (lat & lon & Hc & Hd & Hr) & Hne).
    apply Hne.
    rewrite (validate_coordinates_conversion_fails a b w Hconv).
    rewrite (validate_coordinates_out_of_range c d w lat lon Hc Hd Hr).
    reflexivity.
Qed.

(** C3 (amended).  A rejection is the result [None], the same for every
    cause.  The cause shows only in the operational log, where each
    rejection leaves exactly one warning: the conversion warning with the
    exception text when [float] raised [ValueError] or [TypeError], the
    latitude warning when the latitude is out of range, the longitude warning
    when the latitude is in range and the longitude is not. *)
Theorem validate_coordinates_rejection_logged (latitude longitude : pyval)
    (w : world) :
  fst (validate_coordinates latitude longitude w) = Ret None <->
  (exists e,
      (py_float latitude = Raise e \/
       (exists lat, py_float latitude = Ret lat) /\ py_float longitude = Raise e) /\
      is_ValueError_or_TypeError (exn_class_of e) = true /\
      snd (validate_coordinates latitude longitude w) =
        logged (conversion_warning e) w) \/
  (exists lat lon,
      py_float latitude = Ret lat /\ py_float longitude = Ret lon /\
      latitude_ok lat = false /\
      snd (validate_coordinates latitude longitude w) =
        logged (latitude_warning lat) w) \/
  (exists lat lon,
      py_float latitude = Ret lat /\ py_float longitude = Ret lon /\
      latitude_ok lat = true /\ longitude_ok lon = false /\
      snd (validate_coordinates latitude longitude w) =
        logged (longitude_warning lon) w).
Proof.
  rewrite validate_coordinates_unfold. cbv zeta.
  destruct (py_float latitude) as [lat | e1].
  - destruct (py_float longitude) as [lon | e2].
    + destruct (latitude_ok lat) eqn:Hlat; [destruct (longitude_ok lon) eqn:Hlon |];
        simpl; split.
      * discriminate.
      * intros [(e & [H | [_ H]] & _) | [(l1 & l2 & [= <-] & [= <-] & H & _)
                                        | (l1 & l2 & [= <-] & [= <-] & _ & H & _)]];
          congruence.
      * intros _. right. right. exists lat, lon. auto.
      * reflexivity.
      * intros _. right. left. exists lat, lon. auto.
      * reflexivity.
    + destruct (is_ValueError_or_TypeError (exn_class_of e2)) eqn:Hc; simpl; split.
      * intros _. left. exists e2. split; [right; eauto | auto].
      * reflexivity.
      * discriminate.
      * intros [(e & [H | [_ [= <-]]] & He & _) | [(l1 & l2 & _ & H & _)
                                                  | (l1 & l2 & _ & H & _)]];
          congruence.
  - destruct (is_ValueError_or_TypeError (exn_class_of e1)) eqn:Hc; simpl; split.
    + intros _. left. exists e1. auto.
    + reflexivity.
    + discriminate.
    + intros [(e & [[= <-] | [[l H] _]] & He & _) | [(l1 & l2 & H & _)
                                                    | (l1 & l2 & H & _)]];
        congruence.
Qed.

Lemma validate_coordinates_rejection_logged_witness :
  snd (validate_coordinates (PyInt 999) (PyInt 0) initial_world) =
    logged (latitude_warning (float_of_Z 999)) initial_world.
Proof.
  destruct (proj1 (validate_coordinates_rejection_logged
                     (PyInt 999) (PyInt 0) initial_world))
    as [(e & [H | [_ H]] & _) | [(lat & lon & Ha & _ & _ & Hw)
                                | (lat & lon & Ha & _ & Hok & _)]].
  - vm_compute; reflexivity.
  - discriminate H.
  - discriminate H.
  - injection Ha as <-. exact Hw.
  - injection Ha as <-. discriminate Hok.
Defined.

(** ** The rate limiter *)

Section Limiter.
Variables max_requests window : Z.

Lemma allow_lookup (k : client_key) (t : float64)
    (m : gmap client_key (list float64)) :
  let pruned := List.filter (in_window window t) (default [] (m !! k)) in
  snd (allow max_requests window k t m) !! k =
    Some (if fst (allow max_requests window k t m)
          then (pruned ++ [t])%list else pruned).
Proof.
  unfold allow. cbv zeta.
  destruct (max_requests <=? _); simpl; apply lookup_insert_eq.
Qed.

Lemma allow_lookup_ne (k k' : client_key) (t : float64)
    (m : gmap client_key (list float64)) :
  k <> k' -> snd (allow max_requests window k t m) !! k' = m !! k'.
Proof.
  intros Hne. unfold allow. cbv zeta.
  destruct (max_requests <=? _); simpl; apply lookup_insert_ne; assumption.
Qed.

Lemma allow_decision (k : client_key) (t : float64)
    (m : gmap client_key (list float64)) :
  let pruned := List.filter (in_window window t) (default [] (m !! k)) in
  fst (allow max_requests window k t m) = true <->
  Z.of_nat (length pruned) < max_requests.
Proof.
  unfold allow. cbv zeta.
  destruct (Z.leb_spec max_requests
              (Z.of_nat (length (List.filter (in_window window t)
                                             (default [] (m !! k))))));
    simpl; split; intros; try lia; try discriminate; reflexivity.
Qed.

Hypothesis max_requests_nonneg : 0 <= max_requests.
Hypothesis window_pos : 0 < window.

Lemma allow_preserves_inv (k : client_key) (t : float64)
    (m : gmap client_key (list float64)) (seen : gmap client_key float64) :
  is_finite t = true ->
  (forall k l, m !! k = Some l -> Z.of_nat (length l) <= max_requests) ->
  limiter_inv max_requests window m seen ->
  limiter_inv max_requests window
              (snd (allow max_requests window k t m)) (<[k := t]> seen).
Proof.
  intros Hfin Hlen Hinv k' l' Hl'.
  destruct (decide (k = k')) as [<- | Hne].
  - rewrite allow_lookup in Hl'. injection Hl' as <-.
    rewrite lookup_insert_eq.
    set (pruned := List.filter (in_window window t) (default [] (m !! k))).
    assert (Hpr : Forall (fun t0 => in_window window t t0 = true) pruned).
    { apply Forall_forall. intros x Hx.
      apply list_elem_of_In, filter_In in Hx. tauto. }
    assert (Hle : Z.of_nat (length pruned) <= max_requests).
    { pose proof (filter_length_le (in_window window t) (default [] (m !! k))) as Hf.
      fold pruned in Hf.
      destruct (m !! k) as [l |] eqn:Hk; simpl in *.
      - specialize (Hlen k l Hk). lia.
      - lia. }
    destruct (fst (allow max_requests window k t m)) eqn:Hd.
    + apply allow_decision in Hd. fold pruned in Hd.
      split.
      * rewrite length_app. simpl. lia.
      * exists t. split; [reflexivity |].
        apply Forall_app. split; [assumption |].
        constructor; [| constructor].
        apply in_window_diag; assumption.
    + split; [assumption |]. exists t. split; [reflexivity | assumption].
  - rewrite allow_lookup_ne in Hl' by assumption.
    rewrite lookup_insert_ne by assumption.
    apply Hinv. assumption.
Qed.

Lemma run_allow_inv (calls : list (client_key * float64)) :
  Forall (fun c => is_finite (snd c) = true) calls ->
  forall m seen,
    limiter_inv max_requests window m seen ->
    limiter_inv max_requests window
                (snd (run_allow max_requests window calls m))
                (last_calls calls seen).
Proof.
  induction 1 as [| [k t] rest Hfin _ IH]; intros m seen Hinv.
  - exact Hinv.
  - simpl.
    destruct (allow max_requests window k t m) as [ok m'] eqn:Ha.
    destruct (run_allow max_requests window rest m') as [oks m''] eqn:Hr.
    simpl.
    change m'' with (snd (oks, m'')). rewrite <- Hr.
    apply IH.
    change m' with (snd (ok, m')). rewrite <- Ha.
    apply allow_preserves_inv; [exact Hfin | | exact Hinv].
    intros k0 l0 Hk0. apply (Hinv k0 l0 Hk0).
Qed.
End Limiter.

Lemma allow_admits (max_requests window : Z) (k : client_key) (t : float64)
    (m : gmap client_key (list float64)) (kept : list float64) :
  List.filter (in_window window t) (default [] (m !! k)) = kept ->
  Z.of_nat (length kept) < max_requests ->
  allow max_requests window k t m = (true, <[k := (kept ++ [t])%list]> m).
Proof.
  intros <- Hlt. unfold allow.
  destruct (Z.leb_spec max_requests
              (Z.of_nat (length (List.filter (in_window window t)
                                             (default [] (m !! k))))));
    [lia | reflexivity].
Qed.

Lemma allow_refuses (max_requests window : Z) (k : client_key) (t : float64)
    (m : gmap client_key (list float64)) (kept : list float64) :
  List.filter (in_window window t) (default [] (m !! k)) = kept ->
  max_requests <= Z.of_nat (length kept) ->
  allow max_requests window k t m = (false, <[k := kept]> m).
Proof.
  intros <- Hle. unfold allow.
  destruct (Z.leb_spec max_requests
              (Z.of_nat (length (List.filter (in_window window t)
                                             (default [] (m !! k))))));
    [reflexivity | lia].
Qed.

(** The scenario of the specification, for any client and any five times:
    three calls inside one window pass, a fourth inside it is refused, and a
    call that finds the three recorded times outside its window passes. *)
Lemma allow_three_then_refuse_then_recover (k : client_key)
    (t1 t2 t3 t4 t5 : float64) :
  in_window 60 t2 t1 = true ->
  in_window 60 t3 t1 = true -> in_window 60 t3 t2 = true ->
  in_window 60 t4 t1 = true -> in_window 60 t4 t2 = true ->
  in_window 60 t4 t3 = true ->
  in_window 60 t5 t1 = false -> in_window 60 t5 t2 = false ->
  in_window 60 t5 t3 = false ->
  fst (run_allow 3 60 [(k, t1); (k, t2); (k, t3); (k, t4); (k, t5)] ∅) =
    [true; true; true; false; true].
Proof.
  intros H21 H31 H32 H41 H42 H43 H51 H52 H53.
  cbn [run_allow].
  rewrite (allow_admits 3 60 k t1 ∅ []);
    [| rewrite lookup_empty; reflexivity | simpl; lia].
  rewrite (allow_admits 3 60 k t2 _ [t1]);
    [| rewrite lookup_insert_eq; cbn [default from_option id List.filter app];
       rewrite H21; reflexivity | simpl; lia].
  rewrite (allow_admits 3 60 k t3 _ [t1; t2]);
    [| rewrite lookup_insert_eq; cbn [default from_option id List.filter app];
       rewrite H31, H32; reflexivity | simpl; lia].
  rewrite (allow_refuses 3 60 k t4 _ [t1; t2; t3]);
    [| rewrite lookup_insert_eq; cbn [default from_option id List.filter app];
       rewrite H41, H42, H43; reflexivity | simpl; lia].
  rewrite (allow_admits 3 60 k t5 _ []);
    [| rewrite lookup_insert_eq; cbn [default from_option id List.filter app];
       rewrite H51, H52, H53; reflexivity | simpl; lia].
  reflexivity.
Qed.

(** C2 (counterexample).  The claim retains a timestamp that is exactly
    [window_seconds] old.  With a window of 60, a client whose list holds the
    time 1000 calls at 1060: the stored time is exactly 60 old, the wording
    of the specification keeps it, and the code, which keeps only ages
    below the window, drops it. *)
Lemma allow_drops_timestamp_exactly_window_old :
  let k : client_key := Some "203.0.113.7" in
  let t0 := float_of_Z 1000 in
  let t1 := float_of_Z 1060 in
  float_cmp_int (float_sub t1 t0) 60 = Some Eq /\
  snd (spec_allow 3 60 k t1 {[k := [t0]]}) !! k = Some [t0; t1] /\
  snd (allow 3 60 k t1 {[k := [t0]]}) !! k = Some [t1] /\
  allow 3 60 k t1 {[k := [t0]]} <> spec_allow 3 60 k t1 {[k := [t0]]}.
Proof.
  cbv zeta.
  assert (Hs : snd (spec_allow 3 60 (Some "203.0.113.7") (float_of_Z 1060)
                      {[Some "203.0.113.7" := [float_of_Z 1000]]})
               !! Some "203.0.113.7" = Some [float_of_Z 1000; float_of_Z 1060]).
  { unfold spec_allow. rewrite lookup_singleton_eq.
    cbn [default from_option id].
    change (List.filter _ [float_of_Z 1000]) with [float_of_Z 1000].
    simpl. apply lookup_insert_eq. }
  assert (Ha : snd (allow 3 60 (Some "203.0.113.7") (float_of_Z 1060)
                      {[Some "203.0.113.7" := [float_of_Z 1000]]})
               !! Some "203.0.113.7" = Some [float_of_Z 1060]).
  { rewrite allow_lookup, lookup_singleton_eq.
    cbn [default from_option id].
    change (List.filter _ [float_of_Z 1000]) with (@nil float64).
    rewrite (allow_admits 3 60 _ _ _ []);
      [reflexivity | rewrite lookup_singleton_eq; reflexivity | simpl; lia]. }
  split; [vm_compute; reflexivity |].
  split; [exact Hs |].
  split; [exact Ha |].
  intros Heq.
  assert (H : Some [float_of_Z 1060] = Some [float_of_Z 1000; float_of_Z 1060]).
  { etransitivity; [symmetry; exact Ha |].
    etransitivity; [| exact Hs].
    exact (f_equal (fun p => snd p !! Some "203.0.113.7") Heq). }
  discriminate H.
Qed.

(** C2 (amended).  On every call the stored timestamps whose age
    [now - t] is not below the window are discarded, one exactly
    [window_seconds] old included; the call is refused, and nothing recorded,
    exactly when at least [max_requests] timestamps remain; otherwise [now]
    is appended and the call passes.  Other clients' lists are untouched.
    With [max_requests = 3] and a window of 60: three calls inside one window
    pass, a fourth is refused, and a call past the window passes again. *)
Theorem allow_prunes_checks_records (max_requests window : Z) (k : client_key)
    (t : float64) (m : gmap client_key (list float64)) :
  let stored := default [] (m !! k) in
  let kept := List.filter (fun x => float_lt_int (float_sub t x) window) stored in
  (forall x, float_cmp_int (float_sub t x) window = Some Eq -> ~ In x kept) /\
  (fst (allow max_requests window k t m) = false <->
     max_requests <= Z.of_nat (length kept)) /\
  snd (allow max_requests window k t m) !! k =
    Some (if fst (allow max_requests window k t m)
          then (kept ++ [t])%list else kept) /\
  (forall k', k <> k' -> snd (allow max_requests window k t m) !! k' = m !! k') /\
  (forall t1 t2 t3 t4 t5,
      in_window 60 t2 t1 = true ->
      in_window 60 t3 t1 = true -> in_window 60 t3 t2 = true ->
      in_window 60 t4 t1 = true -> in_window 60 t4 t2 = true ->
      in_window 60 t4 t3 = true ->
      in_window 60 t5 t1 = false -> in_window 60 t5 t2 = false ->
      in_window 60 t5 t3 = false ->
      fst (run_allow 3 60 [(k, t1); (k, t2); (k, t3); (k, t4); (k, t5)] ∅) =
        [true; true; true; false; true]).
Proof.
  cbv zeta. repeat split.
  - intros x Hx Hin. apply filter_In in Hin. destruct Hin as [_ Hlt].
    unfold float_lt_int in Hlt. rewrite Hx in Hlt. discriminate.
  - intros Hd. pose proof (allow_decision max_requests window k t m) as H.
    cbv zeta in H. unfold in_window in H.
    destruct (Z.le_gt_cases max_requests
                (Z.of_nat (length (List.filter
                   (fun x => float_lt_int (float_sub t x) window)
                   (default [] (m !! k)))))) as [Hle | Hgt]; [exact Hle |].
    apply H in Hgt. congruence.
  - intros Hle. pose proof (allow_decision max_requests window k t m) as H.
    cbv zeta in H. unfold in_window in H.
    destruct (fst (allow max_requests window k t m)); [| reflexivity].
    assert (Hlt := proj1 H eq_refl). lia.
  - apply allow_lookup.
  - intros k' Hne. apply allow_lookup_ne. exact Hne.
  - apply allow_three_then_refuse_then_recover.
Qed.

Lemma allow_prunes_checks_records_witness :
  fst (run_allow 3 60
         [(Some "203.0.113.7", float_of_Z 1000);
          (Some "203.0.113.7", float_of_Z 1010);
          (Some "203.0.113.7", float_of_Z 1020);
          (Some "203.0.113.7", float_of_Z 1030);
          (Some "203.0.113.7", float_of_Z 1090)] ∅) =
    [true; true; true; false; true].
Proof.
  pose proof (allow_prunes_checks_records 3 60 (Some "203.0.113.7")
                (float_of_Z 1000) ∅) as H.
  cbv zeta in H. destruct H as (_ & _ & _ & _ & H).
  apply H; vm_compute; reflexivity.
Defined.

(** C10.  From the empty dictionary, after any sequence of calls at finite
    clock readings, with a limit that is not negative and a positive window:
    every client's stored list has at most [max_requests] entries, and each
    entry lies inside the window that ends at that client's latest call.  A
    call that passes leaves the pruned list with exactly its own time
    appended; a refused call leaves the pruned list. *)
Theorem limiter_invariant (max_requests window : Z)
    (calls : list (client_key * float64)) :
  0 <= max_requests -> 0 < window ->
  Forall (fun c => is_finite (snd c) = true) calls ->
  (forall k l,
      snd (run_allow max_requests window calls ∅) !! k = Some l ->
      Z.of_nat (length l) <= max_requests /\
      exists last, last_calls calls ∅ !! k = Some last /\
        Forall (fun t => float_lt_int (float_sub last t) window = true) l) /\
  (forall k t m,
      let pruned := List.filter (in_window window t) (default [] (m !! k)) in
      snd (allow max_requests window k t m) !! k =
        Some (if fst (allow max_requests window k t m)
              then (pruned ++ [t])%list else pruned) /\
      length (if fst (allow max_requests window k t m)
              then (pruned ++ [t])%list else pruned) =
        (length pruned + if fst (allow max_requests window k t m) then 1 else 0)%nat).
Proof.
  intros Hmax Hwin Hfin. split.
  - intros k l Hl.
    assert (Hinv : limiter_inv max_requests window
                     (snd (run_allow max_requests window calls ∅))
                     (last_calls calls ∅)).
    { apply run_allow_inv; try assumption.
      intros k0 l0 Hk0. rewrite lookup_empty in Hk0. discriminate. }
    exact (Hinv k l Hl).
  - intros k t m. cbv zeta. split; [apply allow_lookup |].
    destruct (fst (allow max_requests window k t m)).
    + rewrite length_app. reflexivity.
    + lia.
Qed.

Lemma limiter_invariant_witness :
  exists l,
    snd (run_allow 60 60
           [(Some "203.0.113.7", float_of_Z 1000);
            (Some "198.51.100.2", float_of_Z 1010);
            (Some "203.0.113.7", float_of_Z 1090)] ∅) !! Some "203.0.113.7"
      = Some l /\
    Z.of_nat (length l) <= 60 /\
    Forall (fun t => float_lt_int (float_sub (float_of_Z 1090) t) 60 = true) l.
Proof.
  exists [float_of_Z 1090].
  assert (Hl : snd (run_allow 60 60
                      [(Some "203.0.113.7", float_of_Z 1000);
                       (Some "198.51.100.2", float_of_Z 1010);
                       (Some "203.0.113.7", float_of_Z 1090)] ∅)
               !! Some "203.0.113.7" = Some [float_of_Z 1090])
    by (vm_compute; reflexivity).
  split; [exact Hl |].
  destruct (proj1 (limiter_invariant 60 60
                     [(Some "203.0.113.7", float_of_Z 1000);
                      (Some "198.51.100.2", float_of_Z 1010);
                      (Some "203.0.113.7", float_of_Z 1090)]
                     ltac:(lia) ltac:(lia) ltac:(repeat constructor))
                  _ _ Hl) as (Hlen & last & Hlast & Hall).
  split; [exact Hlen |].
  assert (Hc : last_calls [(Some "203.0.113.7", float_of_Z 1000);
                           (Some "198.51.100.2", float_of_Z 1010);
                           (Some "203.0.113.7", float_of_Z 1090)] ∅
               !! Some "203.0.113.7" = Some (float_of_Z 1090))
    by (vm_compute; reflexivity).
  injection (eq_trans (eq_sym Hlast) Hc) as ->. exact Hall.
Defined.

(** ** Storage blocks *)

Lemma with_get_db_sound {A} (body : M A) (w : world) :
  next_fault w = None ->
  with_get_db body w = body (set_db_faults (tl (db_faults w)) w).
Proof.
  unfold next_fault, with_get_db. destruct w as [rq d fs n sn lg]. simpl.
  destruct fs as [| [ev |] rest]; simpl; intros H; try discriminate; reflexivity.
Qed.

Lemma with_get_db_fault {A} (body : M A) (w : world) (ev : db_fault) :
  next_fault w = Some ev ->
  with_get_db body w =
    (Raise (Exn SQLiteError (fault_message ev)), after_fault ev w).
Proof.
  unfold next_fault, with_get_db, after_fault.
  destruct (db_faults w) as [| [ev' |] rest]; simpl; intros H; try discriminate.
  injection H as ->. destruct ev; reflexivity.
Qed.

(** ** Text and the error log *)

Lemma decode_step_not_surrogate (b0 : Z) (rest : list Z) :
  is_surrogate (fst (decode_step b0 rest)) = false.
Proof.
  unfold decode_step.
  repeat match goal with
         | |- context [if ?c then _ else _] => destruct c eqn:?
         | |- context [match ?l with [] => _ | _ :: _ => _ end] => destruct l
         end;
    cbn [fst]; try reflexivity; unfold is_surrogate, is_continuation in *;
    repeat match goal with
           | H : negb _ = false |- _ => apply negb_false_iff in H
           | H : negb _ = true |- _ => apply negb_true_iff in H
           | H : _ && _ = true |- _ => apply andb_true_iff in H; destruct H
           | H : (_ <? _) = true |- _ => apply Z.ltb_lt in H
           | H : (_ <=? _) = true |- _ => apply Z.leb_le in H
           end;
    try assumption;
    apply andb_false_iff; first [left; apply Z.leb_gt; lia | right; apply Z.leb_gt; lia].
Qed.

Lemma decode_bytes_encodable (fuel : nat) (l : list Z) :
  utf8_encodable (decode_bytes fuel l) = true.
Proof.
  revert l. induction fuel as [| fuel IH]; intros l; [reflexivity |].
  destruct l as [| b0 rest]; [reflexivity |].
  cbn [decode_bytes].
  pose proof (decode_step_not_surrogate b0 rest) as Hc.
  destruct (decode_step b0 rest) as [c n]. cbn [fst] in Hc.
  cbn [utf8_encodable forallb]. rewrite Hc. apply IH.
Qed.

(** A text of the model never stands for a [str] with a lone surrogate. *)
Lemma decode_utf8_encodable (s : string) : utf8_encodable (decode_utf8 s) = true.
Proof. apply decode_bytes_encodable. Qed.

Lemma utf8_encodable_take (n : nat) (s : pystr) :
  utf8_encodable s = true -> utf8_encodable (take n s) = true.
Proof.
  revert n. induction s as [| c s IH]; intros [| n]; try reflexivity.
  cbn [utf8_encodable forallb take firstn]. intros H.
  apply andb_true_iff in H. destruct H as [Hc Hs].
  rewrite Hc. exact (IH n Hs).
Qed.

Lemma first_surrogates_encodable (i : nat) (s : pystr) :
  utf8_encodable s = true -> first_surrogates i s = None.
Proof.
  revert i. induction s as [| c s IH]; intros i; [reflexivity |].
  cbn [utf8_encodable forallb first_surrogates]. intros H.
  apply andb_true_iff in H. destruct H as [Hc Hs].
  apply negb_true_iff in Hc. rewrite Hc. exact (IH (S i) Hs).
Qed.

Lemma first_surrogates_some (i : nat) (s : pystr) :
  utf8_encodable s = false -> first_surrogates i s <> None.
Proof.
  revert i. induction s as [| c s IH]; intros i; [discriminate |].
  cbn [utf8_encodable forallb first_surrogates].
  destruct (is_surrogate c); [discriminate |]. exact (IH (S i)).
Qed.

Lemma bind_parameters_encodable (params : list pystr) :
  forallb utf8_encodable params = true -> bind_parameters params = Ret tt.
Proof.
  induction params as [| p params IH]; [reflexivity |].
  cbn [forallb bind_parameters]. intros H.
  apply andb_true_iff in H. destruct H as [Hp Hps].
  unfold utf8_encode_error. rewrite (first_surrogates_encodable 0 p Hp).
  exact (IH Hps).
Qed.

(** With parameters that can be encoded, binding is invisible. *)
Lemma with_get_db_bound_encodable {A} (params : list pystr) (body : M A)
    (w : world) :
  forallb utf8_encodable params = true ->
  with_get_db_bound params body w = with_get_db body w.
Proof.
  intros H. unfold with_get_db_bound.
  rewrite (bind_parameters_encodable params H).
  destruct (db_faults w) as [| [[msg | msg] |] rest]; reflexivity.
Qed.

(** The sink in both cases, for a message and an endpoint that can be
    encoded: a sound block appends the truncated message, a failing one is
    logged and swallowed. *)
Lemma log_error_to_db_unfold (error_message endpoint : pystr) (w : world) :
  utf8_encodable (take 500 error_message) = true ->
  utf8_encodable endpoint = true ->
  log_error_to_db error_message endpoint w =
  match next_fault w with
  | None =>
      insert_error_log (take 500 error_message) endpoint
                       (set_db_faults (tl (db_faults w)) w)
  | Some ev =>
      (Ret tt,
       logged (LogRecord ERROR "Не удалось записать ошибку в БД: {e}"
                         [PyStr (fault_message ev)])
              (after_fault ev w))
  end.
Proof.
  intros Hm He. unfold log_error_to_db, try_except.
  rewrite with_get_db_bound_encodable
    by (cbn [forallb]; rewrite Hm, He; reflexivity).
  destruct (next_fault w) as [ev |] eqn:Hf.
  - rewrite (with_get_db_fault _ w ev Hf). reflexivity.
  - rewrite (with_get_db_sound _ w Hf). reflexivity.
Qed.

(** The sink as the handlers call it, on texts of the model. *)
Lemma log_error_to_db_text_unfold (error_message endpoint : string) (w : world) :
  log_error_to_db (decode_utf8 error_message) (decode_utf8 endpoint) w =
  match next_fault w with
  | None =>
      insert_error_log (take 500 (decode_utf8 error_message))
                       (decode_utf8 endpoint)
                       (set_db_faults (tl (db_faults w)) w)
  | Some ev =>
      (Ret tt,
       logged (LogRecord ERROR "Не удалось записать ошибку в БД: {e}"
                         [PyStr (fault_message ev)])
              (after_fault ev w))
  end.
Proof.
  apply log_error_to_db_unfold.
  - apply utf8_encodable_take, decode_utf8_encodable.
  - apply decode_utf8_encodable.
Qed.

(** C6 (counterexample).  The claim has the sink return normally for every
    message string.  A [str] may hold a lone surrogate, which UTF-8 cannot
    encode: binding the message ["x\udc80y"] raises [UnicodeEncodeError],
    which is no [SQLiteError], so it leaves the function, with storage sound
    and nothing inserted. *)
Lemma log_error_to_db_unencodable_raises :
  fst (log_error_to_db [120; 56448; 121] (decode_utf8 "/save_location")
                       initial_world) =
    Raise (Exn UnicodeEncodeError
             "'utf-8' codec can't encode character '\udc80' in position 1: surrogates not allowed") /\
  db (snd (log_error_to_db [120; 56448; 121] (decode_utf8 "/save_location")
                           initial_world)) = db initial_world /\
  ~ exists w',
      log_error_to_db [120; 56448; 121] (decode_utf8 "/save_location")
                      initial_world = (Ret tt, w').
Proof.
  assert (H : log_error_to_db [120; 56448; 121] (decode_utf8 "/save_location")
                              initial_world =
              (Raise (Exn UnicodeEncodeError
                        "'utf-8' codec can't encode character '\udc80' in position 1: surrogates not allowed"),
               set_db_faults [] initial_world))
    by (vm_compute; reflexivity).
  rewrite H. split; [reflexivity |]. split; [reflexivity |].
  intros [w' Hw']. discriminate Hw'.
Qed.

(** C6 (amended).  For every message whose first 500 characters, and every
    endpoint, hold no lone surrogate, the sink returns normally.  When
    storage is sound it appends one row holding the first 500 characters of
    the message (the whole message when it is shorter) and the endpoint; when
    storage fails the failure is swallowed and both tables stay as they
    were.  The limiter and the [locations] table are never touched. *)
Theorem log_error_to_db_truncates_and_swallows (error_message endpoint : pystr)
    (w : world) :
  utf8_encodable (take 500 error_message) = true ->
  utf8_encodable endpoint = true ->
  exists w',
    log_error_to_db error_message endpoint w = (Ret tt, w') /\
    requests w' = requests w /\
    locations (db w') = locations (db w) /\
    match next_fault w with
    | None =>
        error_logs (db w') =
          (error_logs (db w) ++
             [ErrorLog (error_logs_seq (db w) + 1)
                       (take 500 error_message) endpoint (sql_now w)])%list
    | Some _ => db w' = db w
    end /\
    length (take 500 error_message) = Nat.min 500 (length error_message) /\
    exists rest, error_message = (take 500 error_message ++ rest)%list.
Proof.
  intros Hm He. rewrite (log_error_to_db_unfold _ _ _ Hm He).
  destruct (next_fault w) as [ev |] eqn:Hf.
  - eexists. split; [reflexivity |].
    repeat split; try (destruct ev; reflexivity).
    + apply length_take.
    + exists (drop 500 error_message). symmetry. apply take_drop.
  - eexists. split; [reflexivity |].
    repeat split.
    + apply length_take.
    + exists (drop 500 error_message). symmetry. apply take_drop.
Qed.

Lemma log_error_to_db_truncates_and_swallows_witness :
  error_logs (db (snd (log_error_to_db (repeat 1103 600)
                                       (decode_utf8 "/save_location")
                                       initial_world))) =
    [ErrorLog 1 (repeat 1103 500) (decode_utf8 "/save_location") 0].
Proof.
  destruct (log_error_to_db_truncates_and_swallows
              (repeat 1103 600) (decode_utf8 "/save_location") initial_world
              ltac:(vm_compute; reflexivity) ltac:(vm_compute; reflexivity))
    as (w' & Hrun & _ & _ & Hlog & _).
  rewrite Hrun. cbn [snd]. cbn [next_fault initial_world db_faults] in Hlog.
  rewrite Hlog. vm_compute. reflexivity.
Defined.

(** ** Statistics *)

Lemma latest_fold (rows : list location) (best : option location) :
  match fold_left
          (fun best r =>
             match best with
             | Some b => if loc_timestamp b <=? loc_timestamp r then Some r else Some b
             | None => Some r
             end) rows best with
  | None => best = None /\ rows = []
  | Some r =>
      (best = Some r \/ In r rows) /\
      (forall b, best = Some b -> loc_timestamp b <= loc_timestamp r) /\
      (forall r', In r' rows -> loc_timestamp r' <= loc_timestamp r)
  end.
Proof.
  revert best. induction rows as [| x rows IH]; intros best; simpl.
  - destruct best as [b |]; [| auto].
    split; [auto |]. split; [intros b' [= ->]; lia | tauto].
  - match goal with |- context [fold_left ?f rows ?acc] =>
      specialize (IH acc); destruct (fold_left f rows acc) as [r |]
    end.
    + destruct IH as (Hin & Hbest & Hrows).
      destruct best as [b |].
      * destruct (Z.leb_spec (loc_timestamp b) (loc_timestamp x)).
        -- split; [destruct Hin as [[= ->] | Hin]; auto |].
           split; [intros b' [= ->]; specialize (Hbest x eq_refl); lia |].
           intros r' [-> | Hr']; auto.
        -- split; [destruct Hin as [Hin | Hin]; auto |].
           split; [intros b' [= ->]; auto |].
           intros r' [-> | Hr']; [specialize (Hbest b eq_refl); lia | auto].
      * split; [destruct Hin as [[= ->] | Hin]; auto |].
        split; [discriminate |].
        intros r' [-> | Hr']; auto.
    + destruct IH as [Hnone _]. destruct best as [b |]; [| discriminate].
      destruct (loc_timestamp b <=? loc_timestamp x); discriminate.
Qed.

Lemma earliest_fold (rows : list location) (best : option location) :
  match fold_left
          (fun best r =>
             match best with
             | Some b => if loc_timestamp r <? loc_timestamp b then Some r else Some b
             | None => Some r
             end) rows best with
  | None => best = None /\ rows = []
  | Some r =>
      (best = Some r \/ In r rows) /\
      (forall b, best = Some b -> loc_timestamp r <= loc_timestamp b) /\
      (forall r', In r' rows -> loc_timestamp r <= loc_timestamp r')
  end.
Proof.
  revert best. induction rows as [| x rows IH]; intros best; simpl.
  - destruct best as [b |]; [| auto].
    split; [auto |]. split; [intros b' [= ->]; lia | tauto].
  - match goal with |- context [fold_left ?f rows ?acc] =>
      specialize (IH acc); destruct (fold_left f rows acc) as [r |]
    end.
    + destruct IH as (Hin & Hbest & Hrows).
      destruct best as [b |].
      * destruct (Z.ltb_spec (loc_timestamp x) (loc_timestamp b)).
        -- split; [destruct Hin as [[= ->] | Hin]; auto |].
           split; [intros b' [= ->]; specialize (Hbest x eq_refl); lia |].
           intros r' [-> | Hr']; auto.
        -- split; [destruct Hin as [Hin | Hin]; auto |].
           split; [intros b' [= ->]; auto |].
           intros r' [-> | Hr']; [specialize (Hbest b eq_refl); lia | auto].
      * split; [destruct Hin as [[= ->] | Hin]; auto |].
        split; [discriminate |].
        intros r' [-> | Hr']; auto.
    + destruct IH as [Hnone _]. destruct best as [b |]; [| discriminate].
      destruct (loc_timestamp x <? loc_timestamp b); discriminate.
Qed.

Lemma latest_spec (rows : list location) :
  match latest rows with
  | None => rows = []
  | Some r => In r rows /\
              forall r', In r' rows -> loc_timestamp r' <= loc_timestamp r
  end.
Proof.
  unfold latest. pose proof (latest_fold rows None) as H.
  destruct (fold_left _ rows None) as [r |].
  - destruct H as ([H | H] & _ & Hall); [discriminate | auto].
  - tauto.
Qed.

Lemma earliest_spec (rows : list location) :
  match earliest rows with
  | None => rows = []
  | Some r => In r rows /\
              forall r', In r' rows -> loc_timestamp r <= loc_timestamp r'
  end.
Proof.
  unfold earliest. pose proof (earliest_fold rows None) as H.
  destruct (fold_left _ rows None) as [r |].
  - destruct H as ([H | H] & _ & Hall); [discriminate | auto].
  - tauto.
Qed.

(** C7.  With storage sound, [GET /statistics] answers 200 with the number
    of rows.  On an empty table the count is 0 and both [last_location] and
    [first_record_date] are null.  Otherwise [last_location] is a stored row
    whose timestamp no row exceeds, and [first_record_date] is the timestamp
    of a stored row that no row precedes. *)
Theorem get_statistics_reports (w : world) :
  next_fault w = None ->
  let rows := locations (db w) in
  exists last first,
    fst (get_statistics w) =
      Ret (Response (StatisticsBody "OK" (Z.of_nat (length rows)) last first) 200) /\
    (rows = [] -> Z.of_nat (length rows) = 0 /\ last = None /\ first = None) /\
    (rows <> [] ->
     (exists r, In r rows /\
        last = Some (loc_latitude r, loc_longitude r, loc_timestamp r) /\
        forall r', In r' rows -> loc_timestamp r' <= loc_timestamp r) /\
     (exists r, In r rows /\
        first = Some (loc_timestamp r) /\
        forall r', In r' rows -> loc_timestamp r <= loc_timestamp r')).
Proof.
  intros Hf. cbv zeta.
  unfold get_statistics, try_except. rewrite (with_get_db_sound _ w Hf).
  cbn [ret fst db set_db_faults locations].
  pose proof (latest_spec (locations (db w))) as Hl.
  pose proof (earliest_spec (locations (db w))) as He.
  eexists. eexists. split; [reflexivity |]. split.
  - intros Hrows. rewrite Hrows. auto.
  - intros Hrows.
    destruct (latest (locations (db w))) as [r1 |]; [| contradiction].
    destruct (earliest (locations (db w))) as [r2 |]; [| contradiction].
    split.
    + exists r1. simpl. tauto.
    + exists r2. tauto.
Qed.

Lemma get_statistics_reports_witness :
  fst (get_statistics initial_world) =
    Ret (Response (StatisticsBody "OK" 0 None None) 200).
Proof.
  destruct (get_statistics_reports initial_world eq_refl)
    as (last & first & Heq & Hempty & _).
  destruct (Hempty eq_refl) as (_ & -> & ->). exact Heq.
Defined.

(** C9.  [GET /health] answers 200, healthy and connected, exactly when the
    probe block runs without a storage error, and 503, unhealthy and
    disconnected, when it fails.  A failing probe writes nothing to either
    table and opens no second storage block: the error log sink is not
    called. *)
Theorem health_check_reports (w : world) :
  (next_fault w = None ->
     health_check w =
       (Ret (Response (HealthBody "healthy" "connected" (now w)) 200),
        set_db_faults (tl (db_faults w)) w)) /\
  (forall ev, next_fault w = Some ev ->
     fst (health_check w) =
       Ret (Response (UnhealthyBody "unhealthy" "disconnected" (fault_message ev)) 503) /\
     db (snd (health_check w)) = db w /\
     db_faults (snd (health_check w)) = tl (db_faults w)) /\
  (exists r, fst (health_check w) = Ret r /\
     (resp_status r = 200 <-> next_fault w = None) /\
     (resp_status r = 503 <-> exists ev, next_fault w = Some ev)).
Proof.
  assert (Hok : next_fault w = None ->
     health_check w =
       (Ret (Response (HealthBody "healthy" "connected" (now w)) 200),
        set_db_faults (tl (db_faults w)) w)).
  { intros Hf. unfold health_check, try_except, bind.
    rewrite (with_get_db_sound _ w Hf). reflexivity. }
  assert (Hbad : forall ev, next_fault w = Some ev ->
     health_check w =
       (Ret (Response (UnhealthyBody "unhealthy" "disconnected" (fault_message ev)) 503),
        logged (LogRecord ERROR "Ошибка проверки здоровья: {e}"
                          [PyStr (fault_message ev)])
               (after_fault ev w))).
  { intros ev Hf. unfold health_check, try_except, bind.
    rewrite (with_get_db_fault _ w ev Hf). reflexivity. }
  split; [exact Hok |]. split.
  - intros ev Hf. rewrite (Hbad ev Hf). destruct ev; simpl; auto.
  - destruct (next_fault w) as [ev |] eqn:Hf.
    + rewrite (Hbad ev eq_refl). eexists. split; [reflexivity |]. simpl.
      split; split; try discriminate; eauto.
    + rewrite (Hok eq_refl). eexists. split; [reflexivity |]. simpl.
      split; split; try discriminate; auto. intros [ev H]. discriminate.
Qed.

Lemma health_check_reports_witness :
  fst (health_check
         (set_db_faults [Some (StatementFault "database is locked")] initial_world)) =
    Ret (Response (UnhealthyBody "unhealthy" "disconnected" "database is locked") 503) /\
  health_check initial_world =
    (Ret (Response (HealthBody "healthy" "connected" (now initial_world)) 200),
     set_db_faults [] initial_world).
Proof.
  split.
  - apply (proj1 (proj2 (health_check_reports
             (set_db_faults [Some (StatementFault "database is locked")]
                            initial_world)))
             (StatementFault "database is locked")).
    reflexivity.
  - apply (proj1 (health_check_reports initial_world)). reflexivity.
Defined.

(** ** Saving a location *)

Lemma log_error_to_db_returns (error_message endpoint : string) (w : world) :
  exists w',
    log_error_to_db (decode_utf8 error_message) (decode_utf8 endpoint) w
      = (Ret tt, w') /\
    requests w' = requests w /\
    locations (db w') = locations (db w) /\
    locations_seq (db w') = locations_seq (db w).
Proof.
  rewrite log_error_to_db_text_unfold.
  destruct (next_fault w) as [ev |].
  - eexists. split; [reflexivity |]. destruct ev; simpl; auto.
  - eexists. split; [reflexivity |]. simpl; auto.
Qed.

(** With storage sound the insert commits and the answer is 200. *)
Lemma persist_location_sound (lat lon : float64) (w : world) :
  next_fault w = None ->
  exists w',
    persist_location lat lon w =
      (Ret (Response (SavedBody "OK" "Локация сохранена успешно"
                                (locations_seq (db w) + 1) lat lon) 200), w') /\
    requests w' = requests w /\
    locations (db w') = (locations (db w) ++ [inserted_row lat lon w])%list /\
    error_logs (db w') = error_logs (db w).
Proof.
  intros Hf. unfold persist_location, try_except.
  rewrite (with_get_db_sound _ w Hf).
  eexists. split; [reflexivity |]. simpl. auto.
Qed.

(** With a storage error the block rolls back, the error goes to the sink
    and the answer is the fixed 500. *)
Lemma persist_location_fault (lat lon : float64) (w : world) (ev : db_fault) :
  next_fault w = Some ev ->
  persist_location lat lon w =
    (Ret storage_error_response,
     snd (log_error_to_db (decode_utf8 (fault_message ev))
            (decode_utf8 "/save_location")
            (logged (LogRecord ERROR "Ошибка базы данных: {e}"
                               [PyStr (fault_message ev)])
                    (after_fault ev w)))).
Proof.
  intros Hf. unfold persist_location, try_except.
  rewrite (with_get_db_fault _ w ev Hf).
  cbn [exn_class_of is_SQLiteError exn_str].
  unfold bind at 1. cbn [logger].
  fold (logged (LogRecord ERROR "Ошибка базы данных: {e}" [PyStr (fault_message ev)])
               (after_fault ev w)).
  unfold bind.
  destruct (log_error_to_db_returns (fault_message ev) "/save_location"
              (logged (LogRecord ERROR "Ошибка базы данных: {e}"
                                 [PyStr (fault_message ev)])
                      (after_fault ev w))) as (w' & -> & _).
  reflexivity.
Qed.

Lemma on_unexpected_returns (e : exn) (w : world) :
  exists w',
    on_unexpected e w =
      (Ret (Response (ErrorBody "Внутренняя ошибка сервера") 500), w') /\
    requests w' = requests w /\
    locations (db w') = locations (db w).
Proof.
  unfold on_unexpected, bind. cbn [logger].
  destruct (log_error_to_db_returns (exn_str e) "/save_location"
              (set_oplog (oplog w ++ [LogRecord ERROR "Неожиданная ошибка: {e}"
                                                [PyStr (exn_str e)]]) w))
    as (w' & -> & Hr & Hl & _).
  eexists. split; [reflexivity |]. simpl in *. auto.
Qed.

Lemma persist_location_returns (lat lon : float64) (w : world) :
  exists r w',
    persist_location lat lon w = (Ret r, w') /\
    (resp_status r = 200 \/ resp_status r = 500) /\
    requests w' = requests w.
Proof.
  destruct (next_fault w) as [ev |] eqn:Hf.
  - rewrite (persist_location_fault lat lon w ev Hf).
    eexists. eexists. split; [reflexivity |]. split; [right; reflexivity |].
    destruct (log_error_to_db_returns (fault_message ev) "/save_location"
                (logged (LogRecord ERROR "Ошибка базы данных: {e}"
                                   [PyStr (fault_message ev)])
                        (after_fault ev w))) as (w' & -> & Hr & _).
    simpl. rewrite Hr. destruct ev; reflexivity.
  - destruct (persist_location_sound lat lon w Hf) as (w' & -> & Hr & _).
    eexists. eexists. split; [reflexivity |]. split; [left; reflexivity | exact Hr].
Qed.

(** The view, one case per path: an empty body, a body that is no
    dictionary, a missing field, and the three outcomes of the validator. *)
Lemma save_location_view_unfold (request : request) (w : world) :
  save_location_view request w =
  let data := get_json request in
  if negb (truthy data) then
    (Ret (Response (ErrorBody "Неверный формат JSON") 400),
     logged (LogRecord WARNING "Получен пустой JSON" []) w)
  else
    match py_get data "latitude", py_get data "longitude" with
    | Ret lat, Ret lon =>
        if is_none lat || is_none lon then
          (Ret (Response
                  (ErrorBody "Отсутствуют обязательные поля: latitude и longitude")
                  400),
           logged (LogRecord WARNING "Отсутствуют координаты в запросе" []) w)
        else
          match validate_coordinates lat lon w with
          | (Ret None, w') =>
              (Ret (Response (ErrorBody "Неверные координаты") 400), w')
          | (Ret (Some (lat', lon')), w') => persist_location lat' lon' w'
          | (Raise e, w') => on_unexpected e w'
          end
    | Raise e, _ | Ret _, Raise e => on_unexpected e w
    end.
Proof.
  unfold save_location_view, try_except. cbv zeta.
  destruct (truthy (get_json request)); [| reflexivity].
  cbn [negb]. unfold bind at 1. unfold lift at 1.
  destruct (py_get (get_json request) "latitude") as [lat | e1]; [| reflexivity].
  unfold bind at 1. unfold lift at 1.
  destruct (py_get (get_json request) "longitude") as [lon | e2]; [| reflexivity].
  destruct (is_none lat || is_none lon); [reflexivity |].
  unfold bind at 1.
  destruct (validate_coordinates lat lon w) as [[[[lat' lon'] |] | e] w'];
    try reflexivity.
  destruct (persist_location_returns lat' lon' w') as (r & w'' & -> & _).
  reflexivity.
Qed.

(** The three causes of a 400: a body that is empty or does not parse, a
    dictionary without one of the two fields, coordinates the validator
    rejects. *)
Lemma save_location_view_400_causes (request : request) (w : world) :
  truthy (get_json request) = false \/
  (exists d, get_json request = PyDict d /\
     (is_none (default PyNone (dict_lookup d "latitude"))
      || is_none (default PyNone (dict_lookup d "longitude")) = true \/
      fst (validate_coordinates (default PyNone (dict_lookup d "latitude"))
                                (default PyNone (dict_lookup d "longitude")) w)
        = Ret None)) ->
  resp_status_of (fst (save_location_view request w)) = Some 400.
Proof.
  rewrite save_location_view_unfold. cbv zeta.
  intros [Hempty | (d & Hd & Hcause)].
  - rewrite Hempty. reflexivity.
  - destruct (negb (truthy (get_json request))); [reflexivity |].
    rewrite Hd. cbn [py_get].
    destruct (is_none (default PyNone (dict_lookup d "latitude"))
              || is_none (default PyNone (dict_lookup d "longitude")));
      [reflexivity |].
    destruct Hcause as [Hnone | Hrej]; [discriminate |].
    destruct (validate_coordinates _ _ w) as [r w']. simpl in Hrej. subst r.
    reflexivity.
Qed.

(** A 400 from the view leaves the limiter and both tables as they were. *)
Lemma save_location_view_400 (request : request) (w : world) (r : response) :
  fst (save_location_view request w) = Ret r ->
  resp_status r = 400 ->
  db (snd (save_location_view request w)) = db w /\
  requests (snd (save_location_view request w)) = requests w /\
  db_faults (snd (save_location_view request w)) = db_faults w.
Proof.
  rewrite save_location_view_unfold. cbv zeta.
  destruct (negb (truthy (get_json request))); [simpl; auto |].
  destruct (py_get (get_json request) "latitude") as [lat | e1].
  - destruct (py_get (get_json request) "longitude") as [lon | e2].
    + destruct (is_none lat || is_none lon); [simpl; auto |].
      pose proof (validate_coordinates_frame lat lon w) as Hframe.
      cbv zeta in Hframe.
      destruct (validate_coordinates lat lon w) as [[[[lat' lon'] |] | e] w'].
      * destruct (persist_location_returns lat' lon' w') as (r' & w'' & -> & Hs & _).
        simpl. intros [= ->] H400. lia.
      * simpl in *. tauto.
      * destruct (on_unexpected_returns e w') as (w'' & -> & _).
        simpl. intros [= <-]. discriminate.
    + destruct (on_unexpected_returns e2 w) as (w'' & -> & _).
      simpl. intros [= <-]. discriminate.
  - destruct (on_unexpected_returns e1 w) as (w'' & -> & _).
    simpl. intros [= <-]. discriminate.
Qed.

(** The decorators, one case per path. *)
Lemma save_location_unfold (request : request) (w : world) :
  save_location request w =
  if negb (is_json request) then
    (Ret (Response (ErrorBody "Content-Type должен быть application/json") 415),
     logged (LogRecord WARNING "Запрос без Content-Type: application/json" []) w)
  else
    let gate := allow 60 60 (remote_addr request) (now w) (requests w) in
    if fst gate then save_location_view request (set_requests (snd gate) w)
    else
      (Ret (Response (ErrorBody "Превышен лимит запросов. Попробуйте позже.") 429),
       logged (LogRecord WARNING "Превышен лимит запросов для IP: {client_ip}"
                 [match remote_addr request with
                  | Some a => PyStr a
                  | None => PyNone
                  end])
              (set_requests (snd gate) w)).
Proof.
  unfold save_location, require_json, rate_limit.
  destruct (is_json request); [| reflexivity].
  cbn [negb]. cbv zeta.
  destruct (allow 60 60 (remote_addr request) (now w) (requests w)) as [[] m'];
    reflexivity.
Qed.

Lemma save_location_view_submitted (request : request) (w : world)
    (lat lon : float64) :
  submitted_coordinates (get_json request) = Some (lat, lon) ->
  save_location_view request w = persist_location lat lon w.
Proof.
  unfold submitted_coordinates. rewrite save_location_view_unfold. cbv zeta.
  destruct (truthy (get_json request)); [| discriminate]. cbn [negb].
  destruct (py_get (get_json request) "latitude") as [a | e1]; [| discriminate].
  destruct (py_get (get_json request) "longitude") as [b | e2]; [| discriminate].
  destruct (is_none a || is_none b); [discriminate |].
  rewrite validate_coordinates_unfold. cbv zeta.
  destruct (py_float a) as [lat' | e1]; [| discriminate].
  destruct (py_float b) as [lon' | e2]; [| discriminate].
  destruct (latitude_ok lat'); [| discriminate].
  destruct (longitude_ok lon'); [| discriminate].
  intros [= -> ->]. reflexivity.
Qed.

(** The statistics answer depends on the tables and the pending faults
    only. *)
Lemma get_statistics_ext (w1 w2 : world) :
  db w1 = db w2 -> db_faults w1 = db_faults w2 ->
  fst (get_statistics w1) = fst (get_statistics w2).
Proof.
  intros Hdb Hfs. unfold get_statistics, try_except, with_get_db.
  rewrite Hfs. destruct (db_faults w2) as [| [[msg | msg] |] rest]; simpl;
    rewrite ?Hdb; reflexivity.
Qed.

(** C4.  A request whose body is not declared as JSON is answered 415 by
    [require_json], the outer decorator, before the limiter runs: the
    limiter's dictionary, and so the client's window, is left as it was,
    whatever the limiter would have decided.  The tables are untouched. *)
Theorem save_location_content_type_first (request : request) (w : world) :
  is_json request = false ->
  fst (save_location request w) =
    Ret (Response (ErrorBody "Content-Type должен быть application/json") 415) /\
  requests (snd (save_location request w)) = requests w /\
  db (snd (save_location request w)) = db w.
Proof.
  intros Hj. rewrite save_location_unfold, Hj. simpl. auto.
Qed.

Lemma save_location_content_type_first_witness :
  let request := Request false (Some "203.0.113.7")
                         (PyDict [("latitude", PyFloat (float_of_Z 55));
                                  ("longitude", PyFloat (float_of_Z 37))]) in
  resp_status_of (fst (save_location request initial_world)) = Some 415 /\
  requests (snd (save_location request initial_world)) !! Some "203.0.113.7" = None.
Proof.
  cbv zeta.
  destruct (save_location_content_type_first
              (Request false (Some "203.0.113.7")
                       (PyDict [("latitude", PyFloat (float_of_Z 55));
                                ("longitude", PyFloat (float_of_Z 37))]))
              initial_world eq_refl) as (Hr & Hq & _).
  rewrite Hr, Hq. split; reflexivity.
Defined.

(** C5.  Whenever [POST /save_location] answers 400, both tables are
    exactly as before the request: no location row was added, the number of
    rows is the same, and [GET /statistics] asked afterwards answers what it
    would have answered before. *)
Theorem save_location_400_persists_nothing (request : request) (w : world)
    (r : response) :
  fst (save_location request w) = Ret r ->
  resp_status r = 400 ->
  let w' := snd (save_location request w) in
  db w' = db w /\
  locations (db w') = locations (db w) /\
  length (locations (db w')) = length (locations (db w)) /\
  fst (get_statistics w') = fst (get_statistics w).
Proof.
  intros Hr H400. cbv zeta.
  assert (H : db (snd (save_location request w)) = db w /\
              db_faults (snd (save_location request w)) = db_faults w).
  { revert Hr. rewrite save_location_unfold. cbv zeta.
    destruct (negb (is_json request)).
    - simpl. intros [= <-]. discriminate.
    - destruct (fst (allow 60 60 (remote_addr request) (now w) (requests w))).
      + intros Hr.
        destruct (save_location_view_400 request _ r Hr H400) as (Hdb & _ & Hfs).
        rewrite Hdb, Hfs. auto.
      + simpl. intros [= <-]. discriminate. }
  destruct H as [Hdb Hfs].
  rewrite Hdb. repeat split.
  apply get_statistics_ext; assumption.
Qed.

Lemma save_location_400_persists_nothing_witness :
  let bad_text := Request true (Some "203.0.113.7")
                          (PyDict [("latitude", PyStr "abc"); ("longitude", PyInt 0)]) in
  let bad_range := Request true (Some "203.0.113.7")
                           (PyDict [("latitude", PyInt 999); ("longitude", PyInt 0)]) in
  (resp_status_of (fst (save_location bad_text initial_world)) = Some 400 /\
   locations (db (snd (save_location bad_text initial_world))) = []) /\
  (resp_status_of (fst (save_location bad_range initial_world)) = Some 400 /\
   locations (db (snd (save_location bad_range initial_world))) = []).
Proof.
  cbv zeta. split.
  - split; [vm_compute; reflexivity |].
    refine (proj1 (proj2 (save_location_400_persists_nothing
                            (Request true (Some "203.0.113.7")
                               (PyDict [("latitude", PyStr "abc");
                                        ("longitude", PyInt 0)]))
                            initial_world
                            (Response (ErrorBody "Неверные координаты") 400)
                            _ _))).
    + vm_compute; reflexivity.
    + reflexivity.
  - split; [vm_compute; reflexivity |].
    refine (proj1 (proj2 (save_location_400_persists_nothing
                            (Request true (Some "203.0.113.7")
                               (PyDict [("latitude", PyInt 999);
                                        ("longitude", PyInt 0)]))
                            initial_world
                            (Response (ErrorBody "Неверные координаты") 400)
                            _ _))).
    + vm_compute; reflexivity.
    + reflexivity.
Defined.

(** C8.  When the request reaches the insert and storage fails there,
    whatever the error: the block rolls back, the handler passes the error
    text to the error log sink under ["/save_location"], and the answer is
    the fixed 500 body.  Two requests that fail with two different storage
    errors receive the same answer.  When the sink's own block is sound the
    error log gains the row with the message cut to 500 characters. *)
Theorem save_location_storage_error_generic (request : request) (w : world)
    (ev : db_fault) (lat lon : float64) :
  is_json request = true ->
  fst (allow 60 60 (remote_addr request) (now w) (requests w)) = true ->
  submitted_coordinates (get_json request) = Some (lat, lon) ->
  next_fault w = Some ev ->
  let w' := snd (save_location request w) in
  fst (save_location request w) = Ret storage_error_response /\
  locations (db w') = locations (db w) /\
  w' = snd (log_error_to_db (decode_utf8 (fault_message ev))
            (decode_utf8 "/save_location")
              (logged (LogRecord ERROR "Ошибка базы данных: {e}"
                                 [PyStr (fault_message ev)])
                      (after_fault ev
                         (set_requests
                            (snd (allow 60 60 (remote_addr request) (now w)
                                        (requests w))) w)))) /\
  (match tl (db_faults w) with
   | Some _ :: _ => error_logs (db w') = error_logs (db w)
   | _ =>
       error_logs (db w') =
         (error_logs (db w) ++
            [ErrorLog (error_logs_seq (db w) + 1)
                      (take 500 (decode_utf8 (fault_message ev)))
                      (decode_utf8 "/save_location") (sql_now w)])%list
   end) /\
  (forall request2 w2 ev2 lat2 lon2,
      is_json request2 = true ->
      fst (allow 60 60 (remote_addr request2) (now w2) (requests w2)) = true ->
      submitted_coordinates (get_json request2) = Some (lat2, lon2) ->
      next_fault w2 = Some ev2 ->
      fst (save_location request2 w2) = fst (save_location request w)).
Proof.
  intros Hj Ha Hs Hf.
  assert (Hrun : forall rq wd e la lo,
             is_json rq = true ->
             fst (allow 60 60 (remote_addr rq) (now wd) (requests wd)) = true ->
             submitted_coordinates (get_json rq) = Some (la, lo) ->
             next_fault wd = Some e ->
             save_location rq wd =
               (Ret storage_error_response,
                snd (log_error_to_db (decode_utf8 (fault_message e))
            (decode_utf8 "/save_location")
                       (logged (LogRecord ERROR "Ошибка базы данных: {e}"
                                          [PyStr (fault_message e)])
                               (after_fault e
                                  (set_requests
                                     (snd (allow 60 60 (remote_addr rq) (now wd)
                                                 (requests wd))) wd)))))).
  { intros rq wd e la lo Hj' Ha' Hs' Hf'.
    rewrite save_location_unfold, Hj'. cbn [negb]. cbv zeta. rewrite Ha'.
    rewrite (save_location_view_submitted rq _ la lo Hs').
    apply persist_location_fault. exact Hf'. }
  cbv zeta. rewrite (Hrun request w ev lat lon Hj Ha Hs Hf).
  cbn [fst snd].
  split; [reflexivity |].
  rewrite log_error_to_db_text_unfold.
  assert (Hnext : next_fault
                    (logged (LogRecord ERROR "Ошибка базы данных: {e}"
                                       [PyStr (fault_message ev)])
                            (after_fault ev
                               (set_requests
                                  (snd (allow 60 60 (remote_addr request) (now w)
                                              (requests w))) w))) =
                  match tl (db_faults w) with f :: _ => f | [] => None end).
  { destruct ev; reflexivity. }
  rewrite Hnext.
  split; [| split; [reflexivity | split]].
  - destruct (tl (db_faults w)) as [| [ev' |] rest]; destruct ev; try destruct ev';
      reflexivity.
  - destruct (tl (db_faults w)) as [| [ev' |] rest]; destruct ev; try destruct ev';
      reflexivity.
  - intros request2 w2 ev2 lat2 lon2 Hj2 Ha2 Hs2 Hf2.
    rewrite (Hrun request2 w2 ev2 lat2 lon2 Hj2 Ha2 Hs2 Hf2). reflexivity.
Qed.

Lemma save_location_storage_error_generic_witness :
  let request :=
    Request true (Some "203.0.113.7")
            (PyDict [("latitude", PyFloat (float_of_decimal false 557558 (-4)));
                     ("longitude", PyFloat (float_of_decimal false 376173 (-4)))]) in
  let w1 := set_db_faults [Some (StatementFault "database is locked")] initial_world in
  let w2 := set_db_faults [Some (ConnectFault "unable to open database file")]
                          initial_world in
  fst (save_location request w1) = Ret storage_error_response /\
  fst (save_location request w2) = fst (save_location request w1) /\
  error_logs (db (snd (save_location request w1))) =
    [ErrorLog 1 (decode_utf8 "database is locked")
              (decode_utf8 "/save_location") 0].
Proof.
  cbv zeta.
  destruct (save_location_storage_error_generic
              (Request true (Some "203.0.113.7")
                 (PyDict [("latitude", PyFloat (float_of_decimal false 557558 (-4)));
                          ("longitude", PyFloat (float_of_decimal false 376173 (-4)))]))
              (set_db_faults [Some (StatementFault "database is locked")] initial_world)
              (StatementFault "database is locked")
              (float_of_decimal false 557558 (-4))
              (float_of_decimal false 376173 (-4))
              eq_refl
              ltac:(vm_compute; reflexivity)
              ltac:(vm_compute; reflexivity)
              eq_refl)
    as (Hr & _ & _ & Hlog & Hsame).
  split; [exact Hr |].
  split; [| exact Hlog].
  apply (Hsame _ _ (ConnectFault "unable to open database file")
               (float_of_decimal false 557558 (-4))
               (float_of_decimal false 376173 (-4)));
    try reflexivity; vm_compute; reflexivity.
Defined.

(** ** The limiter inside the endpoint *)

Lemma save_location_view_requests (request : request) (w : world) :
  requests (snd (save_location_view request w)) = requests w.
Proof.
  rewrite save_location_view_unfold. cbv zeta.
  destruct (negb (truthy (get_json request))); [reflexivity |].
  destruct (py_get (get_json request) "latitude") as [lat | e1].
  - destruct (py_get (get_json request) "longitude") as [lon | e2].
    + destruct (is_none lat || is_none lon); [reflexivity |].
      pose proof (validate_coordinates_frame lat lon w) as Hframe.
      cbv zeta in Hframe. destruct Hframe as (Hrq & _).
      destruct (validate_coordinates lat lon w) as [[[[lat' lon'] |] | e] w'];
        simpl in Hrq.
      * destruct (persist_location_returns lat' lon' w') as (r & w'' & -> & _ & Hq).
        simpl. congruence.
      * simpl. exact Hrq.
      * destruct (on_unexpected_returns e w') as (w'' & -> & Hq & _).
        simpl. congruence.
    + destruct (on_unexpected_returns e2 w) as (w'' & -> & Hq & _). exact Hq.
  - destruct (on_unexpected_returns e1 w) as (w'' & -> & Hq & _). exact Hq.
Qed.

(** The dictionary of the limiter changes through [allow 60 60] only, and
    only for requests that passed the content-type check. *)
Lemma save_location_requests (request : request) (w : world) :
  requests (snd (save_location request w)) =
    if is_json request
    then snd (allow 60 60 (remote_addr request) (now w) (requests w))
    else requests w.
Proof.
  rewrite save_location_unfold.
  destruct (is_json request); [| reflexivity].
  cbn [negb]. cbv zeta.
  destruct (fst (allow 60 60 (remote_addr request) (now w) (requests w))).
  - rewrite save_location_view_requests. reflexivity.
  - reflexivity.
Qed.

(** ** Worked inputs *)

Example float_of_str_plain : float_of_str "abc" = None.
Proof. reflexivity. Qed.

Example float_of_str_decimal :
  float_of_str " 55.7558 " = Some (S754_finite false 7846931253241997 (-47)).
Proof. vm_compute. reflexivity. Qed.

Example float_of_str_grouped :
  float_of_str "1_000.5" = float_of_str "1000.5" /\ float_of_str "1__0" = None.
Proof. vm_compute. auto. Qed.

Example float_of_str_special :
  float_of_str "-Infinity" = Some (S754_infinity true) /\
  float_of_str "NaN" = Some S754_nan /\
  float_of_str "1e400" = Some (S754_infinity false).
Proof. vm_compute. auto. Qed.

Example validate_bounds_inclusive :
  fst (validate_coordinates (PyInt 90) (PyInt (-180)) initial_world) =
    Ret (Some (float_of_Z 90, float_of_Z (-180))) /\
  fst (validate_coordinates (PyStr "-90") (PyStr "180.0") initial_world) =
    Ret (Some (float_of_Z (-90), float_of_Z 180)).
Proof. vm_compute. auto. Qed.

Example validate_just_outside :
  fst (validate_coordinates (PyStr "90.0000001") (PyInt 0) initial_world) = Ret None /\
  fst (validate_coordinates (PyInt 0) (PyStr "-180.0000001") initial_world) = Ret None.
Proof. vm_compute. auto. Qed.

Example validate_nan_inf_none :
  fst (validate_coordinates (PyFloat S754_nan) (PyInt 0) initial_world) = Ret None /\
  fst (validate_coordinates (PyStr "inf") (PyInt 0) initial_world) = Ret None /\
  fst (validate_coordinates PyNone (PyInt 0) initial_world) = Ret None.
Proof. vm_compute. auto. Qed.

Example save_location_end_to_end :
  let request :=
    Request true (Some "203.0.113.7")
            (PyDict [("latitude", PyFloat (float_of_decimal false 557558 (-4)));
                     ("longitude", PyFloat (float_of_decimal false 376173 (-4)))]) in
  fst (save_location request initial_world) =
    Ret (Response (SavedBody "OK" "Локация сохранена успешно" 1
                             (float_of_decimal false 557558 (-4))
                             (float_of_decimal false 376173 (-4))) 200) /\
  fst (get_statistics (snd (save_location request initial_world))) =
    Ret (Response (StatisticsBody "OK" 1
                     (Some (float_of_decimal false 557558 (-4),
                            float_of_decimal false 376173 (-4), 0))
                     (Some 0)) 200).
Proof. vm_compute. auto. Qed.

Example save_location_bad_bodies :
  let post data := resp_status_of
                     (fst (save_location (Request true (Some "203.0.113.7") data)
                                         initial_world)) in
  post PyNone = Some 400 /\
  post (PyDict [("latitude", PyInt 10)]) = Some 400 /\
  post (PyDict [("latitude", PyStr "abc"); ("longitude", PyInt 0)]) = Some 400 /\
  post (PyDict [("latitude", PyInt 999); ("longitude", PyInt 0)]) = Some 400 /\
  post (PyList [PyInt 1]) = Some 500.
Proof. vm_compute. auto 6. Qed.

(** * Further properties *)

(** ** The validator *)

Lemma py_float_raise (x : pyval) (e : exn) :
  py_float x = Raise e ->
  is_ValueError_or_TypeError (exn_class_of e) = true \/
  (exn_class_of e = OverflowError /\
   exists z, x = PyInt z /\ is_finite (float_of_Z z) = false).
Proof.
  unfold py_float. destruct x as [| b | z | f | s | l | d].
  - intros [= <-]. left. reflexivity.
  - discriminate.
  - destruct (float_of_Z z) eqn:Hz; try discriminate.
    intros [= <-]. right. split; [reflexivity |].
    exists z. rewrite Hz. auto.
  - discriminate.
  - destruct (float_of_str s); [discriminate |].
    intros [= <-]. left. reflexivity.
  - intros [= <-]. left. reflexivity.
  - intros [= <-]. left. reflexivity.
Qed.

(** X1.  An accepted pair is the pair [float] makes of the two inputs; both
    numbers are finite and their values lie in [-90, 90] and [-180, 180].
    Accepting logs nothing and changes nothing. *)
Theorem validate_coordinates_accepted_in_bounds (latitude longitude : pyval)
    (w : world) (lat lon : float64) :
  fst (validate_coordinates latitude longitude w) = Ret (Some (lat, lon)) ->
  py_float latitude = Ret lat /\ py_float longitude = Ret lon /\
  is_finite lat = true /\ is_finite lon = true /\
  (-90) * snd (float_num_den lat) <= fst (float_num_den lat)
    <= 90 * snd (float_num_den lat) /\
  (-180) * snd (float_num_den lon) <= fst (float_num_den lon)
    <= 180 * snd (float_num_den lon) /\
  snd (validate_coordinates latitude longitude w) = w.
Proof.
  intros Hacc.
  destruct (proj1 (validate_coordinates_accepts_iff _ _ _ _ _) Hacc)
    as (Ha & Hb & Hlat & Hlon).
  apply range_test_spec in Hlat. apply range_test_spec in Hlon.
  destruct Hlat as [Hf1 Hr1]. destruct Hlon as [Hf2 Hr2].
  repeat (split; [assumption |]).
  rewrite validate_coordinates_unfold, Ha, Hb. cbv zeta.
  unfold latitude_ok, longitude_ok.
  rewrite (proj2 (range_test_spec (-90) 90 lat) (conj Hf1 Hr1)).
  rewrite (proj2 (range_test_spec (-180) 180 lon) (conj Hf2 Hr2)).
  reflexivity.
Qed.

Lemma validate_coordinates_accepted_in_bounds_witness :
  is_finite (float_of_decimal false 557558 (-4)) = true /\
  (-90) * snd (float_num_den (float_of_decimal false 557558 (-4)))
    <= fst (float_num_den (float_of_decimal false 557558 (-4)))
    <= 90 * snd (float_num_den (float_of_decimal false 557558 (-4))).
Proof.
  destruct (validate_coordinates_accepted_in_bounds
              (PyStr "55.7558") (PyStr "37.6173") initial_world
              (float_of_decimal false 557558 (-4))
              (float_of_decimal false 376173 (-4))
              ltac:(vm_compute; reflexivity))
    as (_ & _ & Hfin & _ & Hr & _).
  split; assumption.
Defined.

(** X2.  The only exception that leaves the validator is [OverflowError],
    and only when one of the inputs is an [int] too large for a double; it
    leaves before anything is logged.  Every other failure of [float] is
    caught. *)
Theorem validate_coordinates_raises_only_overflow (latitude longitude : pyval)
    (w : world) (e : exn) :
  fst (validate_coordinates latitude longitude w) = Raise e ->
  exn_class_of e = OverflowError /\
  snd (validate_coordinates latitude longitude w) = w /\
  exists z, (latitude = PyInt z \/ longitude = PyInt z) /\
            is_finite (float_of_Z z) = false.
Proof.
  rewrite validate_coordinates_unfold. cbv zeta.
  destruct (py_float latitude) as [lat | e1] eqn:Ha.
  - destruct (py_float longitude) as [lon | e2] eqn:Hb.
    + destruct (latitude_ok lat); [destruct (longitude_ok lon) |]; discriminate.
    + destruct (py_float_raise _ _ Hb) as [Hc | (Hc & z & -> & Hz)].
      * rewrite Hc. discriminate.
      * rewrite Hc. simpl. intros [= <-]. eauto 6.
  - destruct (py_float_raise _ _ Ha) as [Hc | (Hc & z & -> & Hz)].
    + rewrite Hc. discriminate.
    + rewrite Hc. simpl. intros [= <-]. eauto 6.
Qed.

Lemma validate_coordinates_raises_only_overflow_witness :
  exists z, (PyInt (10 ^ 309) = PyInt z \/ PyInt 0 = PyInt z) /\
            is_finite (float_of_Z z) = false.
Proof.
  exact (proj2 (proj2 (validate_coordinates_raises_only_overflow
                         (PyInt (10 ^ 309)) (PyInt 0) initial_world
                         (Exn OverflowError "int too large to convert to float")
                         ltac:(vm_compute; reflexivity)))).
Defined.

(** ** What a request does to the tables *)

Lemma log_error_to_db_effect (error_message endpoint : string) (w : world) :
  exists w',
    log_error_to_db (decode_utf8 error_message) (decode_utf8 endpoint) w
      = (Ret tt, w') /\
    requests w' = requests w /\
    db_faults w' = tl (db_faults w) /\
    (db w' = db w \/
     db w' = Database (locations (db w)) (locations_seq (db w))
               (error_logs (db w) ++
                  [ErrorLog (error_logs_seq (db w) + 1)
                            (take 500 (decode_utf8 error_message))
                            (decode_utf8 endpoint) (sql_now w)])
               (error_logs_seq (db w) + 1)).
Proof.
  rewrite log_error_to_db_text_unfold.
  destruct (next_fault w) as [ev |].
  - eexists. split; [reflexivity |]. destruct ev; simpl; auto.
  - eexists. split; [reflexivity |]. simpl. auto.
Qed.

Lemma on_unexpected_effect (e : exn) (w : world) :
  exists w',
    on_unexpected e w =
      (Ret (Response (ErrorBody "Внутренняя ошибка сервера") 500), w') /\
    requests w' = requests w /\ error_logged w w'.
Proof.
  unfold on_unexpected, bind. cbn [logger].
  destruct (log_error_to_db_effect (exn_str e) "/save_location"
              (set_oplog (oplog w ++ [LogRecord ERROR "Неожиданная ошибка: {e}"
                                                [PyStr (exn_str e)]]) w))
    as (w' & -> & Hr & _ & Hdb).
  eexists. split; [reflexivity |]. split; [exact Hr |].
  unfold error_logged. simpl in Hdb.
  destruct Hdb as [-> | ->]; simpl; eauto 8.
Qed.

Lemma persist_location_effect (lat lon : float64) (w : world) :
  exists r w',
    persist_location lat lon w = (Ret r, w') /\
    requests w' = requests w /\
    match next_fault w with
    | None =>
        r = Response (SavedBody "OK" "Локация сохранена успешно"
                                (locations_seq (db w) + 1) lat lon) 200 /\
        location_saved lat lon w w'
    | Some _ => r = storage_error_response /\ error_logged w w'
    end.
Proof.
  destruct (next_fault w) as [ev |] eqn:Hf.
  - rewrite (persist_location_fault lat lon w ev Hf).
    destruct (log_error_to_db_effect (fault_message ev) "/save_location"
                (logged (LogRecord ERROR "Ошибка базы данных: {e}"
                                   [PyStr (fault_message ev)])
                        (after_fault ev w))) as (w' & -> & Hr & _ & Hdb).
    eexists. eexists. split; [reflexivity |]. cbn [snd].
    split; [rewrite Hr; destruct ev; reflexivity |].
    split; [reflexivity |].
    unfold error_logged.
    destruct Hdb as [-> | ->]; destruct ev; simpl; eauto 8.
  - unfold persist_location, try_except.
    rewrite (with_get_db_sound _ w Hf).
    eexists. eexists. split; [reflexivity |].
    split; [reflexivity |]. split; reflexivity.
Qed.

(** The view, by what the body submits and what storage does. *)
Lemma save_location_view_outcome (request : request) (w : world) :
  exists r w',
    save_location_view request w = (Ret r, w') /\
    requests w' = requests w /\
    ((resp_status r = 400 /\ submitted_coordinates (get_json request) = None /\
      tables_untouched w w') \/
     (exists lat lon,
        submitted_coordinates (get_json request) = Some (lat, lon) /\
        next_fault w = None /\
        r = Response (SavedBody "OK" "Локация сохранена успешно"
                                (locations_seq (db w) + 1) lat lon) 200 /\
        location_saved lat lon w w') \/
     (resp_status r = 500 /\ error_logged w w')).
Proof.
  destruct (submitted_coordinates (get_json request)) as [[lat lon] |] eqn:Hsub.
  - rewrite (save_location_view_submitted request w lat lon Hsub).
    destruct (persist_location_effect lat lon w) as (r & w' & -> & Hr & Hcase).
    exists r, w'. split; [reflexivity |]. split; [exact Hr |].
    destruct (next_fault w).
    + destruct Hcase as [-> Hlog]. right. right. split; [reflexivity | exact Hlog].
    + destruct Hcase as [-> Hsaved]. right. left. exists lat, lon. auto.
  - revert Hsub. unfold submitted_coordinates.
    rewrite save_location_view_unfold. cbv zeta.
    destruct (truthy (get_json request)); cbn [negb].
    2:{ intros _. eexists. eexists. split; [reflexivity |].
        split; [reflexivity |]. left. repeat split. }
    destruct (py_get (get_json request) "latitude") as [a | e1].
    2:{ intros _. destruct (on_unexpected_effect e1 w) as (w' & -> & Hr & Hl).
        eexists. eexists. split; [reflexivity |]. split; [exact Hr |].
        right. right. split; [reflexivity | exact Hl]. }
    destruct (py_get (get_json request) "longitude") as [b | e2].
    2:{ intros _. destruct (on_unexpected_effect e2 w) as (w' & -> & Hr & Hl).
        eexists. eexists. split; [reflexivity |]. split; [exact Hr |].
        right. right. split; [reflexivity | exact Hl]. }
    destruct (is_none a || is_none b).
    { intros _. eexists. eexists. split; [reflexivity |].
      split; [reflexivity |]. left. repeat split. }
    rewrite validate_coordinates_unfold. cbv zeta.
    destruct (py_float a) as [lat | e1].
    + destruct (py_float b) as [lon | e2].
      * destruct (latitude_ok lat); [destruct (longitude_ok lon) |];
          cbn [negb andb]; try discriminate;
          intros _; eexists; eexists; (split; [reflexivity |]);
          (split; [reflexivity |]); left; repeat split.
      * intros _.
        destruct (is_ValueError_or_TypeError (exn_class_of e2)).
        -- eexists. eexists. split; [reflexivity |].
           split; [reflexivity |]. left. repeat split.
        -- destruct (on_unexpected_effect e2 w) as (w' & -> & Hr & Hl).
           eexists. eexists. split; [reflexivity |]. split; [exact Hr |].
           right. right. split; [reflexivity | exact Hl].
    + intros _.
      destruct (is_ValueError_or_TypeError (exn_class_of e1)).
      * eexists. eexists. split; [reflexivity |].
        split; [reflexivity |]. left. repeat split.
      * destruct (on_unexpected_effect e1 w) as (w' & -> & Hr & Hl).
        eexists. eexists. split; [reflexivity |]. split; [exact Hr |].
        right. right. split; [reflexivity | exact Hl].
Qed.

(** [POST /save_location], by the decorators, the body and storage. *)
Lemma save_location_outcome (request : request) (w : world) :
  exists r w',
    save_location request w = (Ret r, w') /\
    ((is_json request = false /\ resp_status r = 415 /\
      requests w' = requests w /\ tables_untouched w w') \/
     (is_json request = true /\
      requests w' = snd (allow 60 60 (remote_addr request) (now w) (requests w)) /\
      ((fst (allow 60 60 (remote_addr request) (now w) (requests w)) = false /\
        resp_status r = 429 /\ tables_untouched w w') \/
       (fst (allow 60 60 (remote_addr request) (now w) (requests w)) = true /\
        ((resp_status r = 400 /\
          submitted_coordinates (get_json request) = None /\
          tables_untouched w w') \/
         (exists lat lon,
            submitted_coordinates (get_json request) = Some (lat, lon) /\
            next_fault w = None /\
            r = Response (SavedBody "OK" "Локация сохранена успешно"
                                    (locations_seq (db w) + 1) lat lon) 200 /\
            location_saved lat lon w w') \/
         (resp_status r = 500 /\ error_logged w w')))))).
Proof.
  rewrite save_location_unfold.
  destruct (is_json request).
  - cbn [negb]. cbv zeta.
    destruct (fst (allow 60 60 (remote_addr request) (now w) (requests w))).
    + destruct (save_location_view_outcome request
                  (set_requests
                     (snd (allow 60 60 (remote_addr request) (now w) (requests w)))
                     w)) as (r & w' & -> & Hr & Hcase).
      exists r, w'. split; [reflexivity |]. right.
      split; [reflexivity |]. split; [exact Hr |]. right.
      split; [reflexivity |]. exact Hcase.
    + eexists. eexists. split; [reflexivity |]. right.
      split; [reflexivity |]. split; [reflexivity |]. left.
      repeat split.
  - eexists. eexists. split; [reflexivity |]. left. repeat split.
Qed.

Lemma get_statistics_effect (w : world) :
  exists r w',
    get_statistics w = (Ret r, w') /\
    requests w' = requests w /\ db w' = db w /\
    db_faults w' = tl (db_faults w) /\
    match next_fault w with
    | None => resp_status r = 200
    | Some _ => r = Response (ErrorBody "Ошибка получения статистики") 500
    end.
Proof.
  unfold get_statistics, try_except.
  destruct (next_fault w) as [ev |] eqn:Hf.
  - rewrite (with_get_db_fault _ w ev Hf).
    eexists. eexists. split; [reflexivity |]. destruct ev; simpl; auto.
  - rewrite (with_get_db_sound _ w Hf).
    eexists. eexists. split; [reflexivity |]. simpl. auto.
Qed.

Lemma health_check_effect (w : world) :
  exists r w',
    health_check w = (Ret r, w') /\
    requests w' = requests w /\ db w' = db w /\
    (resp_status r = 200 \/ resp_status r = 503).
Proof.
  unfold health_check, try_except, bind.
  destruct (next_fault w) as [ev |] eqn:Hf.
  - rewrite (with_get_db_fault _ w ev Hf).
    eexists. eexists. split; [reflexivity |]. destruct ev; simpl; auto.
  - rewrite (with_get_db_sound _ w Hf).
    eexists. eexists. split; [reflexivity |]. simpl. auto.
Qed.

(** X3.  No exception leaves a route: every request is answered, and with
    one of the statuses of its route only. *)
Theorem dispatch_always_answers (e : endpoint) (w : world) :
  exists r,
    fst (dispatch e w) = Ret r /\
    In (resp_status r)
       match e with
       | PostSaveLocation _ => [200; 400; 415; 429; 500]
       | GetStatistics => [200; 500]
       | GetHealth => [200; 503]
       | Unmatched => [404]
       end.
Proof.
  destruct e as [request | | |]; cbn [dispatch].
  - destruct (save_location_outcome request w) as (r & w' & -> & Hcase).
    exists r. split; [reflexivity |].
    destruct Hcase as [(_ & Hs & _) | (_ & _ & [(_ & Hs & _) | (_ & Hv)])];
      [rewrite Hs; simpl; auto | rewrite Hs; simpl; auto 6 |].
    destruct Hv as [(Hs & _) | [(lat & lon & _ & _ & Hs & _) | (Hs & _)]];
      rewrite Hs; simpl; auto 6.
  - destruct (get_statistics_effect w) as (r & w' & -> & _ & _ & _ & Hs).
    exists r. split; [reflexivity |].
    destruct (next_fault w); [subst r; simpl; auto | rewrite Hs; simpl; auto].
  - destruct (health_check_effect w) as (r & w' & -> & _ & _ & [Hs | Hs]);
      exists r; (split; [reflexivity |]); rewrite Hs; simpl; auto.
  - eexists. split; [reflexivity |]. simpl. auto.
Qed.

(** X4.  An answer 200 means exactly one row was added: its coordinates are
    the validated ones the body submitted, both in range, and they and the
    new row's identifier are what the answer echoes; the error log is
    untouched. *)
Theorem save_location_200_stores_what_it_echoes (request : request) (w : world)
    (r : response) :
  fst (save_location request w) = Ret r ->
  resp_status r = 200 ->
  exists lat lon,
    submitted_coordinates (get_json request) = Some (lat, lon) /\
    latitude_ok lat = true /\ longitude_ok lon = true /\
    r = Response (SavedBody "OK" "Локация сохранена успешно"
                            (locations_seq (db w) + 1) lat lon) 200 /\
    locations (db (snd (save_location request w))) =
      (locations (db w) ++
         [Location (locations_seq (db w) + 1) lat lon (sql_now w) (sql_now w)])%list /\
    error_logs (db (snd (save_location request w))) = error_logs (db w).
Proof.
  destruct (save_location_outcome request w) as (r' & w' & -> & Hcase).
  cbn [fst snd]. intros [= ->] H200.
  destruct Hcase as [(_ & Hs & _) | (_ & _ & [(_ & Hs & _) | (_ & Hv)])];
    try (rewrite Hs in H200; discriminate).
  destruct Hv as [(Hs & _) | [(lat & lon & Hsub & _ & -> & Hsaved) | (Hs & _)]];
    try (rewrite Hs in H200; discriminate).
  exists lat, lon. split; [exact Hsub |].
  assert (Hok : latitude_ok lat = true /\ longitude_ok lon = true).
  { revert Hsub. unfold submitted_coordinates.
    destruct (truthy (get_json request)); [| discriminate].
    destruct (py_get (get_json request) "latitude") as [a |]; [| discriminate].
    destruct (py_get (get_json request) "longitude") as [b |]; [| discriminate].
    destruct (is_none a || is_none b); [discriminate |].
    destruct (py_float a) as [la |]; [| discriminate].
    destruct (py_float b) as [lo |]; [| discriminate].
    destruct (latitude_ok la) eqn:H1; [| discriminate].
    destruct (longitude_ok lo) eqn:H2; [| discriminate].
    intros [= <- <-]. auto. }
  destruct Hok as [H1 H2].
  unfold location_saved in Hsaved. rewrite Hsaved.
  repeat split; assumption.
Qed.

Lemma save_location_200_stores_what_it_echoes_witness :
  let request :=
    Request true (Some "203.0.113.7")
            (PyDict [("latitude", PyStr "55.7558"); ("longitude", PyInt 37)]) in
  locations (db (snd (save_location request initial_world))) =
    [Location 1 (float_of_decimal false 557558 (-4)) (float_of_Z 37) 0 0].
Proof.
  cbv zeta.
  destruct (save_location_200_stores_what_it_echoes
              (Request true (Some "203.0.113.7")
                 (PyDict [("latitude", PyStr "55.7558"); ("longitude", PyInt 37)]))
              initial_world
              (Response (SavedBody "OK" "Локация сохранена успешно" 1
                                   (float_of_decimal false 557558 (-4))
                                   (float_of_Z 37)) 200)
              ltac:(vm_compute; reflexivity) eq_refl)
    as (lat & lon & _ & _ & _ & Hr & Hl & _).
  injection Hr as <- <-. exact Hl.
Defined.

(** X5.  An answer 500 never comes with a stored location: the locations
    table is as before, and the error log is as before or one row longer,
    that row filed under ["/save_location"] with at most 500 characters of
    message. *)
Theorem save_location_500_stores_no_location (request : request) (w : world)
    (r : response) :
  fst (save_location request w) = Ret r ->
  resp_status r = 500 ->
  let w' := snd (save_location request w) in
  locations (db w') = locations (db w) /\
  (error_logs (db w') = error_logs (db w) \/
   exists row,
     error_logs (db w') = (error_logs (db w) ++ [row])%list /\
     err_endpoint row = decode_utf8 "/save_location" /\
     err_id row = error_logs_seq (db w) + 1 /\
     (length (err_message row) <= 500)%nat).
Proof.
  destruct (save_location_outcome request w) as (r' & w' & -> & Hcase).
  cbn [fst snd]. intros [= ->] H500.
  destruct Hcase as [(_ & Hs & _) | (_ & _ & [(_ & Hs & _) | (_ & Hv)])];
    try (rewrite Hs in H500; discriminate).
  destruct Hv as [(Hs & _) | [(lat & lon & _ & _ & Hs & _) | (_ & Hlog)]];
    try (rewrite Hs in H500; discriminate).
  destruct Hlog as (Hloc & _ & [[Herr _] | (msg & Herr & _)]).
  - split; [exact Hloc | left; exact Herr].
  - split; [exact Hloc |]. right. eexists. split; [exact Herr |].
    cbn [err_endpoint err_id err_message]. repeat split.
    rewrite length_take. apply Nat.le_min_l.
Qed.

Lemma save_location_500_stores_no_location_witness :
  locations
    (db (snd (save_location
                (Request true (Some "203.0.113.7") (PyList [PyInt 1]))
                initial_world))) = [].
Proof.
  exact (proj1 (save_location_500_stores_no_location
                  (Request true (Some "203.0.113.7") (PyList [PyInt 1]))
                  initial_world
                  (Response (ErrorBody "Внутренняя ошибка сервера") 500)
                  ltac:(vm_compute; reflexivity) eq_refl)).
Defined.

(** X6.  An answer 415 or 429 comes before any storage block: both tables
    and the pending storage outcomes are as before. *)
Theorem save_location_gates_before_storage (request : request) (w : world)
    (r : response) :
  fst (save_location request w) = Ret r ->
  resp_status r = 415 \/ resp_status r = 429 ->
  db (snd (save_location request w)) = db w /\
  db_faults (snd (save_location request w)) = db_faults w.
Proof.
  destruct (save_location_outcome request w) as (r' & w' & -> & Hcase).
  cbn [fst snd]. intros [= ->] Hst.
  destruct Hcase as [(_ & _ & _ & Ht) | (_ & _ & [(_ & _ & Ht) | (_ & Hv)])];
    try exact Ht.
  destruct Hv as [(Hs & _) | [(lat & lon & _ & _ & Hs & _) | (Hs & _)]];
    rewrite Hs in Hst; destruct Hst; discriminate.
Qed.

Lemma save_location_gates_before_storage_witness :
  let w := set_db_faults [Some (StatementFault "database is locked")] initial_world in
  db_faults (snd (save_location (Request false None PyNone) w)) =
    [Some (StatementFault "database is locked")].
Proof.
  exact (proj2 (save_location_gates_before_storage
                  (Request false None PyNone)
                  (set_db_faults [Some (StatementFault "database is locked")]
                                 initial_world)
                  (Response (ErrorBody "Content-Type должен быть application/json") 415)
                  eq_refl (or_introl eq_refl))).
Defined.

(** X7.  A JSON request is answered 429 exactly when the limiter refuses
    it, that is when at least 60 of the client's stored times are inside the
    window; refused or not, the call leaves the dictionary [allow] computes,
    whatever the view does afterwards. *)
Theorem save_location_429_iff_refused (request : request) (w : world) :
  is_json request = true ->
  let pruned := List.filter (in_window 60 (now w))
                            (default [] (requests w !! remote_addr request)) in
  (resp_status_of (fst (save_location request w)) = Some 429 <->
   60 <= Z.of_nat (length pruned)) /\
  requests (snd (save_location request w)) =
    snd (allow 60 60 (remote_addr request) (now w) (requests w)).
Proof.
  intros Hj. cbv zeta.
  pose proof (allow_decision 60 60 (remote_addr request) (now w) (requests w)) as Hd.
  cbv zeta in Hd.
  destruct (save_location_outcome request w) as (r & w' & -> & Hcase).
  cbn [fst snd resp_status_of].
  destruct Hcase as [(Hj' & _) | (_ & Hrq & Hcase)]; [congruence |].
  split; [| exact Hrq].
  destruct Hcase as [(Ha & Hs & _) | (Ha & Hv)].
  - rewrite Hs. split; [intros _ | reflexivity].
    destruct (Z.le_gt_cases 60
                (Z.of_nat (length (List.filter (in_window 60 (now w))
                   (default [] (requests w !! remote_addr request))))))
      as [H | H]; [exact H |].
    apply Hd in H. congruence.
  - split.
    + destruct Hv as [(Hs & _) | [(lat & lon & _ & _ & Hs & _) | (Hs & _)]];
        rewrite Hs; simpl; discriminate.
    + intros Hle. apply Hd in Ha. lia.
Qed.

Lemma save_location_429_iff_refused_witness :
  resp_status_of
    (fst (save_location (Request true (Some "203.0.113.7") PyNone) initial_world))
    <> Some 429.
Proof.
  intros H.
  apply (proj1 (proj1 (save_location_429_iff_refused
                         (Request true (Some "203.0.113.7") PyNone)
                         initial_world eq_refl))) in H.
  vm_compute in H. apply H. reflexivity.
Defined.

(** ** Statistics *)

(** X8.  [GET /statistics] only reads: the limiter and both tables are as
    before, and it opens one storage block.  When that block fails the answer
    is the fixed 500 body, whatever the error, and the error log sink is not
    called. *)
Theorem get_statistics_read_only (w : world) :
  let w' := snd (get_statistics w) in
  requests w' = requests w /\ db w' = db w /\
  db_faults w' = tl (db_faults w) /\
  match next_fault w with
  | Some _ =>
      fst (get_statistics w) =
        Ret (Response (ErrorBody "Ошибка получения статистики") 500)
  | None => resp_status_of (fst (get_statistics w)) = Some 200
  end.
Proof.
  cbv zeta.
  destruct (get_statistics_effect w) as (r & w' & -> & Hr & Hdb & Hfs & Hs).
  cbn [fst snd resp_status_of].
  repeat (split; [assumption |]).
  destruct (next_fault w); congruence.
Qed.

Lemma submitted_coordinates_in_bounds (data : pyval) (lat lon : float64) :
  submitted_coordinates data = Some (lat, lon) ->
  latitude_ok lat = true /\ longitude_ok lon = true.
Proof.
  unfold submitted_coordinates.
  destruct (truthy data); [| discriminate].
  destruct (py_get data "latitude") as [a |]; [| discriminate].
  destruct (py_get data "longitude") as [b |]; [| discriminate].
  destruct (is_none a || is_none b); [discriminate |].
  destruct (py_float a) as [la |]; [| discriminate].
  destruct (py_float b) as [lo |]; [| discriminate].
  destruct (latitude_ok la) eqn:H1; [| discriminate].
  destruct (longitude_ok lo) eqn:H2; [| discriminate].
  intros [= <- <-]. auto.
Qed.

(** X9.  Saving, then asking for statistics.  When a request is answered
    200 at a storage time later than every stored timestamp, the statistics
    read from the tables it leaves count one row more, their
    [last_location] is the point just answered with that storage time, and
    [first_record_date] is not later than it. *)
Theorem statistics_after_save (request : request) (w w2 : world) (r : response) :
  fst (save_location request w) = Ret r ->
  resp_status r = 200 ->
  Forall (fun row => loc_timestamp row < sql_now w) (locations (db w)) ->
  db w2 = db (snd (save_location request w)) ->
  next_fault w2 = None ->
  exists id lat lon first,
    r = Response (SavedBody "OK" "Локация сохранена успешно" id lat lon) 200 /\
    fst (get_statistics w2) =
      Ret (Response
             (StatisticsBody "OK" (Z.of_nat (length (locations (db w))) + 1)
                             (Some (lat, lon, sql_now w)) (Some first))
             200) /\
    first <= sql_now w.
Proof.
  destruct (save_location_outcome request w) as (r' & w' & -> & Hcase).
  cbn [fst snd]. intros [= ->] H200 Hold Hdb Hf.
  destruct Hcase as [(_ & Hs & _) | (_ & _ & [(_ & Hs & _) | (_ & Hv)])];
    try (rewrite Hs in H200; discriminate).
  destruct Hv as [(Hs & _) | [(lat & lon & _ & _ & -> & Hsaved) | (Hs & _)]];
    try (rewrite Hs in H200; discriminate).
  unfold location_saved in Hsaved. rewrite Hsaved in Hdb.
  unfold get_statistics, try_except. rewrite (with_get_db_sound _ w2 Hf).
  cbn [ret fst db set_db_faults]. rewrite Hdb. cbn [locations].
  set (rows := (locations (db w) ++ [inserted_row lat lon w])%list).
  pose proof (latest_spec rows) as Hl.
  pose proof (earliest_spec rows) as He.
  assert (Hnew : In (inserted_row lat lon w) rows).
  { apply in_or_app. right. left. reflexivity. }
  destruct (latest rows) as [r1 |]; [| rewrite Hl in Hnew; destruct Hnew].
  destruct (earliest rows) as [r2 |]; [| rewrite He in Hnew; destruct Hnew].
  destruct Hl as [Hin1 Hmax]. destruct He as [_ Hmin].
  assert (Hr1 : r1 = inserted_row lat lon w).
  { apply in_app_or in Hin1. destruct Hin1 as [Hin1 | [<- | []]]; [| reflexivity].
    specialize (Hmax _ Hnew). cbn [inserted_row loc_timestamp] in Hmax.
    rewrite Forall_forall in Hold.
    specialize (Hold r1 (proj2 (list_elem_of_In _ _) Hin1)). simpl in Hold. lia. }
  subst r1. specialize (Hmin _ Hnew). cbn [inserted_row loc_timestamp] in Hmin.
  exists (locations_seq (db w) + 1), lat, lon, (loc_timestamp r2).
  split; [reflexivity |]. split; [| exact Hmin].
  unfold rows. rewrite length_app. cbn [length option_map inserted_row
    loc_latitude loc_longitude loc_timestamp].
  do 4 f_equal. lia.
Qed.

Lemma statistics_after_save_witness :
  let request :=
    Request true (Some "203.0.113.7")
            (PyDict [("latitude", PyInt 55); ("longitude", PyInt 37)]) in
  exists first,
    fst (get_statistics (snd (save_location request initial_world))) =
      Ret (Response (StatisticsBody "OK" 1
                       (Some (float_of_Z 55, float_of_Z 37, 0)) (Some first)) 200).
Proof.
  cbv zeta.
  destruct (statistics_after_save
              (Request true (Some "203.0.113.7")
                 (PyDict [("latitude", PyInt 55); ("longitude", PyInt 37)]))
              initial_world
              (snd (save_location
                      (Request true (Some "203.0.113.7")
                         (PyDict [("latitude", PyInt 55); ("longitude", PyInt 37)]))
                      initial_world))
              (Response (SavedBody "OK" "Локация сохранена успешно" 1
                                   (float_of_Z 55) (float_of_Z 37)) 200)
              ltac:(vm_compute; reflexivity) eq_refl
              ltac:(constructor) eq_refl ltac:(vm_compute; reflexivity))
    as (id & lat & lon & first & Hr & Hs & _).
  injection Hr as _ <- <-. exists first. exact Hs.
Defined.

(** ** Sequences of requests *)

(** One request leaves the tables alone, adds one in-range location, or
    adds one error row. *)
Lemma serve_one_tables (w : world) (a : arrival) :
  let w' := serve_one w a in
  db w' = db w \/
  (exists lat lon,
     latitude_ok lat = true /\ longitude_ok lon = true /\
     db w' = Database
               (locations (db w) ++
                  [Location (locations_seq (db w) + 1) lat lon
                            (arr_sql_now a) (arr_sql_now a)])
               (locations_seq (db w) + 1)
               (error_logs (db w)) (error_logs_seq (db w))) \/
  (exists row,
     db w' = Database (locations (db w)) (locations_seq (db w))
                      (error_logs (db w) ++ [row])
                      (error_logs_seq (db w) + 1)).
Proof.
  cbv zeta. unfold serve_one.
  destruct (arr_endpoint a) as [request | | |]; cbn [dispatch].
  - destruct (save_location_outcome request (arrive a w)) as (r & w' & -> & Hcase).
    cbn [snd].
    destruct Hcase as [(_ & _ & _ & Ht & _) | (_ & _ & [(_ & _ & Ht & _) | (_ & Hv)])];
      [left; exact Ht | left; exact Ht |].
    destruct Hv as [(_ & _ & Ht & _) | [(lat & lon & Hsub & _ & _ & Hsaved)
                                       | (_ & Hloc & Hseq & Herr)]].
    + left. exact Ht.
    + right. left. exists lat, lon.
      destruct (submitted_coordinates_in_bounds _ _ _ Hsub) as [H1 H2].
      split; [exact H1 |]. split; [exact H2 |]. exact Hsaved.
    + cbn [arrive db sql_now] in Hloc, Hseq, Herr.
      destruct (db w') as [ls sq es esq]. cbn in Hloc, Hseq, Herr. subst ls sq.
      destruct Herr as [[-> ->] | (msg & -> & ->)].
      * left. destruct (db w); reflexivity.
      * right. right. eexists. reflexivity.
  - destruct (get_statistics_effect (arrive a w)) as (r & w' & -> & _ & Hdb & _).
    left. exact Hdb.
  - destruct (health_check_effect (arrive a w)) as (r & w' & -> & _ & Hdb & _).
    left. exact Hdb.
  - left. reflexivity.
Qed.

(** Only a JSON request to [POST /save_location] touches the limiter, and
    through [allow 60 60] alone. *)
Lemma serve_one_requests (w : world) (a : arrival) :
  requests (serve_one w a) =
    match arr_endpoint a with
    | PostSaveLocation request =>
        if is_json request
        then snd (allow 60 60 (remote_addr request) (arr_now a) (requests w))
        else requests w
    | _ => requests w
    end.
Proof.
  unfold serve_one.
  destruct (arr_endpoint a) as [request | | |]; cbn [dispatch].
  - rewrite save_location_requests. reflexivity.
  - destruct (get_statistics_effect (arrive a w)) as (r & w' & -> & Hr & _).
    exact Hr.
  - destruct (health_check_effect (arrive a w)) as (r & w' & -> & Hr & _).
    exact Hr.
  - reflexivity.
Qed.

Lemma serve_cons (a : arrival) (arrivals : list arrival) (w : world) :
  serve (a :: arrivals) w = serve arrivals (serve_one w a).
Proof. reflexivity. Qed.

(** X10.  The bounds are an invariant of the locations table: if every
    stored row is inside them, so is every row after any sequence of
    requests, whatever the bodies, the clocks and the storage faults. *)
Theorem serve_keeps_rows_in_bounds (arrivals : list arrival) (w : world) :
  Forall row_in_bounds (locations (db w)) ->
  Forall row_in_bounds (locations (db (serve arrivals w))).
Proof.
  revert w. induction arrivals as [| a arrivals IH]; intros w Hinv.
  - exact Hinv.
  - rewrite serve_cons. apply IH.
    pose proof (serve_one_tables w a) as Hstep. cbv zeta in Hstep.
    destruct Hstep as [-> | [(lat & lon & H1 & H2 & ->) | (row & ->)]];
      cbn [locations]; try exact Hinv.
    apply Forall_app. split; [exact Hinv |].
    constructor; [| constructor]. split; assumption.
Qed.

Lemma serve_keeps_rows_in_bounds_witness :
  Forall row_in_bounds
    (locations
       (db (serve
              [Arrival (float_of_Z 1000) 1000 []
                 (PostSaveLocation
                    (Request true (Some "203.0.113.7")
                       (PyDict [("latitude", PyInt 55); ("longitude", PyInt 37)])));
               Arrival (float_of_Z 1001) 1001 []
                 (PostSaveLocation
                    (Request true (Some "203.0.113.7")
                       (PyDict [("latitude", PyInt 91); ("longitude", PyInt 37)])))]
              initial_world))).
Proof.
  apply serve_keeps_rows_in_bounds. constructor.
Defined.

(** X11.  From the freshly initialised tables, after any sequence of
    requests the stored locations carry the identifiers 1, 2, ... in the
    order of insertion: no identifier is reused or skipped, and the last one
    handed out is the number of rows. *)
Theorem serve_numbers_rows_consecutively (arrivals : list arrival) :
  let d := db (serve arrivals initial_world) in
  map loc_id (locations d) = map Z.of_nat (seq 1 (length (locations d))) /\
  locations_seq d = Z.of_nat (length (locations d)) /\
  NoDup (map loc_id (locations d)).
Proof.
  cbv zeta.
  assert (Hgen : forall w,
             map loc_id (locations (db w)) =
               map Z.of_nat (seq 1 (length (locations (db w)))) /\
             locations_seq (db w) = Z.of_nat (length (locations (db w))) ->
             map loc_id (locations (db (serve arrivals w))) =
               map Z.of_nat (seq 1 (length (locations (db (serve arrivals w))))) /\
             locations_seq (db (serve arrivals w)) =
               Z.of_nat (length (locations (db (serve arrivals w))))).
  { induction arrivals as [| a arrivals IH]; intros w Hinv; [exact Hinv |].
    rewrite serve_cons. apply IH.
    pose proof (serve_one_tables w a) as Hstep. cbv zeta in Hstep.
    destruct Hinv as [Hids Hseq].
    destruct Hstep as [-> | [(lat & lon & _ & _ & ->) | (row & ->)]];
      cbn [locations locations_seq]; try (split; assumption).
    rewrite length_app, map_app. cbn [length map loc_id].
    rewrite Nat.add_1_r, seq_S, map_app. cbn [map].
    rewrite <- Hids, Hseq. split; [| lia].
    do 2 f_equal. lia. }
  destruct (Hgen initial_world (conj eq_refl eq_refl)) as [Hids Hseq].
  split; [exact Hids |]. split; [exact Hseq |].
  rewrite Hids. apply NoDup_ListNoDup, Finite.Injective_map_NoDup.
  - intros x y. apply Nat2Z.inj.
  - apply seq_NoDup.
Qed.

(** X12.  Both tables are append-only: after any sequence of requests each
    still begins with the rows it held before, in the same order. *)
Theorem serve_appends_only (arrivals : list arrival) (w : world) :
  exists new_locations new_errors,
    locations (db (serve arrivals w)) = (locations (db w) ++ new_locations)%list /\
    error_logs (db (serve arrivals w)) = (error_logs (db w) ++ new_errors)%list.
Proof.
  revert w. induction arrivals as [| a arrivals IH]; intros w.
  - exists [], []. rewrite !app_nil_r. auto.
  - rewrite serve_cons.
    destruct (IH (serve_one w a)) as (l1 & l2 & -> & ->).
    pose proof (serve_one_tables w a) as Hstep. cbv zeta in Hstep.
    destruct Hstep as [-> | [(lat & lon & _ & _ & ->) | (row & ->)]];
      cbn [locations error_logs].
    + eauto.
    + eexists. eexists. rewrite <- app_assoc. split; reflexivity.
    + eexists. eexists. rewrite <- app_assoc. split; reflexivity.
Qed.

(** ** The limiter over a run *)

Lemma allow_keeps_lengths (max_requests window : Z) (k : client_key)
    (t : float64) (m : gmap client_key (list float64)) :
  0 <= max_requests ->
  (forall k' l, m !! k' = Some l -> Z.of_nat (length l) <= max_requests) ->
  forall k' l,
    snd (allow max_requests window k t m) !! k' = Some l ->
    Z.of_nat (length l) <= max_requests.
Proof.
  intros Hmax Hlen k' l Hl.
  destruct (decide (k = k')) as [<- | Hne].
  - rewrite allow_lookup in Hl. injection Hl as <-.
    pose proof (filter_length_le (in_window window t) (default [] (m !! k))) as Hf.
    assert (Hold : Z.of_nat (length (default [] (m !! k))) <= max_requests).
    { destruct (m !! k) as [l |] eqn:Hk; simpl; [exact (Hlen k l Hk) | lia]. }
    destruct (fst (allow max_requests window k t m)) eqn:Hd.
    + apply allow_decision in Hd. rewrite length_app. simpl. lia.
    + lia.
  - rewrite allow_lookup_ne in Hl by assumption. exact (Hlen k' l Hl).
Qed.

(** X13.  Requests served one after another.  From start-up, after any
    sequence of requests to any routes, with any clock readings and storage
    faults, every list of the limiter's dictionary has at most 60 entries.
    A request changes the dictionary only when it is a JSON request to
    [POST /save_location], and then into what [allow 60 60] makes of it at
    the request's clock reading, whatever the view and storage do. *)
Theorem serve_keeps_limiter_bounded (arrivals : list arrival) :
  (forall k l,
      requests (serve arrivals initial_world) !! k = Some l ->
      (length l <= 60)%nat) /\
  (forall w a,
      requests (serve_one w a) =
        match arr_endpoint a with
        | PostSaveLocation request =>
            if is_json request
            then snd (allow 60 60 (remote_addr request) (arr_now a) (requests w))
            else requests w
        | _ => requests w
        end).
Proof.
  assert (Hgen : forall w,
             (forall k l, requests w !! k = Some l -> Z.of_nat (length l) <= 60) ->
             forall k l, requests (serve arrivals w) !! k = Some l ->
                         Z.of_nat (length l) <= 60).
  { induction arrivals as [| a arrivals IH]; intros w Hinv; [exact Hinv |].
    rewrite serve_cons. apply IH.
    rewrite serve_one_requests.
    destruct (arr_endpoint a) as [request | | |]; try exact Hinv.
    destruct (is_json request); [| exact Hinv].
    apply allow_keeps_lengths; [lia | exact Hinv]. }
  split.
  - intros k l Hl.
    assert (H : Z.of_nat (length l) <= 60).
    { apply (Hgen initial_world) with (k := k); [| exact Hl].
      intros k0 l0 Hk0. cbn [initial_world requests] in Hk0.
      rewrite lookup_empty in Hk0. discriminate. }
    lia.
  - intros w a. apply serve_one_requests.
Qed.

Lemma serve_keeps_limiter_bounded_witness :
  let post := Arrival (float_of_Z 1000) 1000 []
                (PostSaveLocation (Request true (Some "203.0.113.7") PyNone)) in
  (length [float_of_Z 1000] <= 60)%nat /\
  requests (serve_one initial_world post) =
    snd (allow 60 60 (Some "203.0.113.7") (float_of_Z 1000) ∅).
Proof.
  cbv zeta.
  destruct (serve_keeps_limiter_bounded
              [Arrival (float_of_Z 1000) 1000 []
                 (PostSaveLocation (Request true (Some "203.0.113.7") PyNone))])
    as [Hbound Hframe].
  split.
  - apply (Hbound (Some "203.0.113.7")). vm_compute. reflexivity.
  - apply Hframe.
Defined.

Lemma allow_dom (max_requests window : Z) (k : client_key) (t : float64)
    (m : gmap client_key (list float64)) :
  dom (snd (allow max_requests window k t m)) = ({[k]} ∪ dom m : gset client_key).
Proof.
  unfold allow. cbv zeta.
  destruct (max_requests <=? _); simpl; apply dom_insert_L.
Qed.

(** X14.  The limiter never forgets a client: after any sequence of
    requests every client that had an entry still has one, and every client
    that sent a JSON request to [POST /save_location] has one, admitted or
    not. *)
Theorem serve_never_evicts (arrivals : list arrival) (w : world) :
  (dom (requests w) : gset client_key) ⊆ dom (requests (serve arrivals w)) /\
  forall a request,
    In a arrivals ->
    arr_endpoint a = PostSaveLocation request ->
    is_json request = true ->
    remote_addr request ∈ (dom (requests (serve arrivals w)) : gset client_key).
Proof.
  assert (Hstep : forall w a,
             (dom (requests w) : gset client_key) ⊆ dom (requests (serve_one w a))).
  { intros w0 a. rewrite serve_one_requests.
    destruct (arr_endpoint a) as [request | | |]; try reflexivity.
    destruct (is_json request); [| reflexivity].
    rewrite allow_dom. set_solver. }
  assert (Hmono : forall arrivals w,
             (dom (requests w) : gset client_key) ⊆ dom (requests (serve arrivals w))).
  { intros l. induction l as [| a l IH]; intros w0; [reflexivity |].
    rewrite serve_cons. etransitivity; [apply Hstep | apply IH]. }
  split; [apply Hmono |].
  revert w. induction arrivals as [| a0 arrivals IH]; intros w a request Hin He Hj.
  - destruct Hin.
  - rewrite serve_cons. destruct Hin as [-> | Hin].
    + apply (Hmono arrivals (serve_one w a)).
      rewrite serve_one_requests, He, Hj, allow_dom. set_solver.
    + exact (IH (serve_one w a0) a request Hin He Hj).
Qed.

Lemma serve_never_evicts_witness :
  Some "203.0.113.7" ∈
    (dom (requests
            (serve [Arrival (float_of_Z 1000) 1000 []
                      (PostSaveLocation (Request true (Some "203.0.113.7") PyNone));
                    Arrival (float_of_Z 2000) 2000 [] GetStatistics]
                   initial_world)) : gset client_key).
Proof.
  apply (proj2 (serve_never_evicts
                  [Arrival (float_of_Z 1000) 1000 []
                     (PostSaveLocation (Request true (Some "203.0.113.7") PyNone));
                   Arrival (float_of_Z 2000) 2000 [] GetStatistics]
                  initial_world)
               (Arrival (float_of_Z 1000) 1000 []
                  (PostSaveLocation (Request true (Some "203.0.113.7") PyNone)))
               (Request true (Some "203.0.113.7") PyNone)).
  - left. reflexivity.
  - reflexivity.
  - reflexivity.
Defined.

Lemma run_allow_cons (max_requests window : Z) (k : client_key) (t : float64)
    (calls : list (client_key * float64)) (m : gmap client_key (list float64)) :
  run_allow max_requests window ((k, t) :: calls) m =
    (fst (allow max_requests window k t m)
       :: fst (run_allow max_requests window calls
                         (snd (allow max_requests window k t m))),
     snd (run_allow max_requests window calls
                    (snd (allow max_requests window k t m)))).
Proof.
  cbn [run_allow].
  destruct (allow max_requests window k t m) as [ok m'].
  cbn [fst snd].
  destruct (run_allow max_requests window calls m') as [oks m''].
  reflexivity.
Qed.

Lemma allow_ext (max_requests window : Z) (k : client_key) (t : float64)
    (m1 m2 : gmap client_key (list float64)) :
  m1 !! k = m2 !! k ->
  fst (allow max_requests window k t m1) = fst (allow max_requests window k t m2) /\
  snd (allow max_requests window k t m1) !! k =
    snd (allow max_requests window k t m2) !! k.
Proof.
  intros H. unfold allow. cbv zeta. rewrite H.
  destruct (max_requests <=? _); simpl; rewrite !lookup_insert_eq; auto.
Qed.

(** X15.  Clients do not interfere: in any run the decisions a client
    receives, and the list kept for it, are those of the run of its own
    calls alone. *)
Theorem run_allow_per_client (max_requests window : Z) (k : client_key)
    (calls : list (client_key * float64)) :
  decisions_for k calls (fst (run_allow max_requests window calls ∅)) =
    fst (run_allow max_requests window (calls_of k calls) ∅) /\
  snd (run_allow max_requests window calls ∅) !! k =
    snd (run_allow max_requests window (calls_of k calls) ∅) !! k.
Proof.
  assert (Hgen : forall m1 m2 : gmap client_key (list float64),
             m1 !! k = m2 !! k ->
             decisions_for k calls (fst (run_allow max_requests window calls m1)) =
               fst (run_allow max_requests window (calls_of k calls) m2) /\
             snd (run_allow max_requests window calls m1) !! k =
               snd (run_allow max_requests window (calls_of k calls) m2) !! k).
  { induction calls as [| [k' t] calls IH]; intros m1 m2 Hk.
    - split; [reflexivity | exact Hk].
    - rewrite run_allow_cons. cbn [fst snd decisions_for calls_of List.filter].
      fold (calls_of k calls).
      destruct (decide (k' = k)) as [-> | Hne].
      + rewrite bool_decide_eq_true_2 by reflexivity.
        rewrite run_allow_cons. cbn [fst snd].
        destruct (allow_ext max_requests window k t m1 m2 Hk) as [Hd Hs].
        destruct (IH _ _ Hs) as [IH1 IH2].
        rewrite Hd, IH1. split; [reflexivity | exact IH2].
      + rewrite bool_decide_eq_false_2 by assumption.
        apply IH. rewrite allow_lookup_ne by assumption. exact Hk. }
  apply Hgen. reflexivity.
Qed.

(** X16.  The limiter records admitted requests only: whatever time is on
    a client's list after a run is the time of a call of that client that was
    admitted.  A refused call leaves no time behind, and no client's call is
    charged to another. *)
Theorem run_allow_records_admitted (max_requests window : Z)
    (calls : list (client_key * float64)) (k : client_key) (l : list float64)
    (t : float64) :
  snd (run_allow max_requests window calls ∅) !! k = Some l ->
  In t l ->
  exists i,
    calls !! i = Some (k, t) /\
    fst (run_allow max_requests window calls ∅) !! i = Some true.
Proof.
  assert (Hgen : forall (m : gmap client_key (list float64)) l,
             snd (run_allow max_requests window calls m) !! k = Some l ->
             In t l ->
             In t (default [] (m !! k)) \/
             exists i : nat,
               calls !! i = Some (k, t) /\
               fst (run_allow max_requests window calls m) !! i = Some true).
  { induction calls as [| [k' t'] calls IH]; intros m l0 Hl Hin.
    - left. cbn [run_allow snd] in Hl. rewrite Hl. exact Hin.
    - rewrite run_allow_cons in Hl |- *. cbn [fst snd] in Hl |- *.
      destruct (IH _ _ Hl Hin) as [Hold | (i & Hi & Hd)].
      + destruct (decide (k' = k)) as [-> | Hne].
        * rewrite allow_lookup in Hold. cbn [default from_option id] in Hold.
          destruct (fst (allow max_requests window k t' m)) eqn:Hok.
          -- apply in_app_or in Hold. destruct Hold as [Hold | [<- | []]].
             ++ left. apply filter_In in Hold. tauto.
             ++ right. exists 0%nat. split; reflexivity.
          -- left. apply filter_In in Hold. tauto.
        * rewrite allow_lookup_ne in Hold by assumption. left. exact Hold.
      + right. exists (S i). split; assumption. }
  intros Hl Hin.
  destruct (Hgen ∅ l Hl Hin) as [Hold | H]; [| exact H].
  rewrite lookup_empty in Hold. destruct Hold.
Qed.

Lemma run_allow_records_admitted_witness :
  exists i,
    [(Some "203.0.113.7", float_of_Z 1000); (Some "198.51.100.2", float_of_Z 1010)]
      !! i = Some (Some "198.51.100.2", float_of_Z 1010) /\
    fst (run_allow 1 60
           [(Some "203.0.113.7", float_of_Z 1000);
            (Some "198.51.100.2", float_of_Z 1010)] ∅) !! i = Some true.
Proof.
  apply (run_allow_records_admitted 1 60
           [(Some "203.0.113.7", float_of_Z 1000);
            (Some "198.51.100.2", float_of_Z 1010)]
           (Some "198.51.100.2") [float_of_Z 1010] (float_of_Z 1010)).
  - vm_compute. reflexivity.
  - left. reflexivity.
Defined.

(** ** The error log and the aggregate *)

(** X17.  A message of at most 500 characters that holds no lone
    surrogate reaches the error log whole, whatever its script: with storage
    sound and an endpoint that can be encoded, the sink appends a row holding
    exactly the message and the endpoint, under the next identifier of the
    table. *)
Theorem log_error_to_db_keeps_short_message (error_message endpoint : pystr)
    (w : world) :
  (length error_message <= 500)%nat ->
  utf8_encodable error_message = true ->
  utf8_encodable endpoint = true ->
  next_fault w = None ->
  db (snd (log_error_to_db error_message endpoint w)) =
    Database (locations (db w)) (locations_seq (db w))
             (error_logs (db w) ++
                [ErrorLog (error_logs_seq (db w) + 1) error_message endpoint
                          (sql_now w)])
             (error_logs_seq (db w) + 1).
Proof.
  intros Hlen Hm He Hf.
  rewrite log_error_to_db_unfold, Hf;
    [| apply utf8_encodable_take; exact Hm | exact He].
  rewrite (take_ge error_message 500) by lia. reflexivity.
Qed.

Lemma log_error_to_db_keeps_short_message_witness :
  error_logs (db (snd (log_error_to_db (repeat 1103 300)
                                       (decode_utf8 "/save_location")
                                       initial_world))) =
    [ErrorLog 1 (repeat 1103 300) (decode_utf8 "/save_location") 0].
Proof.
  rewrite (log_error_to_db_keeps_short_message
             (repeat 1103 300) (decode_utf8 "/save_location") initial_world).
  - reflexivity.
  - rewrite repeat_length. lia.
  - vm_compute. reflexivity.
  - vm_compute. reflexivity.
  - reflexivity.
Defined.

(** X18.  The aggregate of [GET /statistics] is consistent: the count is 0
    exactly when [last_location] is null, [last_location] is null exactly
    when [first_record_date] is, and when both are present the first record
    date is not later than the timestamp of the last location. *)
Theorem get_statistics_consistent (w : world) (status : string) (total : Z)
    (last : option (float64 * float64 * Z)) (first : option Z) (code : Z) :
  fst (get_statistics w) = Ret (Response (StatisticsBody status total last first) code) ->
  (total = 0 <-> last = None) /\
  (last = None <-> first = None) /\
  total = Z.of_nat (length (locations (db w))) /\
  forall la lo tl tf, last = Some (la, lo, tl) -> first = Some tf -> tf <= tl.
Proof.
  unfold get_statistics, try_except.
  destruct (next_fault w) as [ev |] eqn:Hf.
  - rewrite (with_get_db_fault _ w ev Hf). destruct ev; discriminate.
  - rewrite (with_get_db_sound _ w Hf).
    cbn [ret fst db set_db_faults locations].
    pose proof (latest_spec (locations (db w))) as Hl.
    pose proof (earliest_spec (locations (db w))) as He.
    intros [= _ <- <- <- _].
    destruct (latest (locations (db w))) as [r1 |];
      destruct (earliest (locations (db w))) as [r2 |]; cbn [option_map].
    + destruct Hl as [Hin1 Hmax]. destruct He as [Hin2 Hmin].
      repeat split; try discriminate.
      * intros H0. destruct (locations (db w)); [destruct Hin1 | discriminate].
      * intros la lo tl tf [= _ _ <-] [= <-]. apply Hmax. exact Hin2.
    + destruct Hl as [Hin1 _]. rewrite He in Hin1. destruct Hin1.
    + destruct He as [Hin2 _]. rewrite Hl in Hin2. destruct Hin2.
    + rewrite Hl. repeat split; try reflexivity; discriminate.
Qed.

Lemma get_statistics_consistent_witness :
  (0 = 0 <-> @None (float64 * float64 * Z) = None) /\
  0 = Z.of_nat (length (locations (db initial_world))).
Proof.
  destruct (get_statistics_consistent initial_world "OK" 0 None None 200 eq_refl)
    as (H1 & _ & H2 & _).
  split; assumption.
Defined.

Example float_of_str_other_scripts :
  float_of_str "٩٠" = Some (float_of_Z 90) /\
  float_of_str "１２.５" = float_of_str "12.5" /\
  fst (validate_coordinates (PyStr "٩٠") (PyInt 0) initial_world) =
    Ret (Some (float_of_Z 90, float_of_Z 0)).
Proof. vm_compute. auto. Qed.

Example py_repr_quotes_and_escapes :
  py_repr "abc" = "'abc'" /\
  py_repr "a'b" = String (char_of 34) ("a'b" ++ String (char_of 34) "") /\
  py_repr "a\b" = "'a\\b'" /\
  py_repr (String (char_of 10) "") = "'\n'".
Proof. vm_compute. auto. Qed.

Example log_error_to_db_counts_characters :
  map (fun row => length (err_message row))
      (error_logs (db (snd (log_error_to_db (decode_utf8 "яяя")
                                            (decode_utf8 "/save_location")
                                            initial_world)))) = [3%nat].
Proof. vm_compute. reflexivity. Qed.
